(** * Client-side wiring of the KRA eTims module for Frappe

    The four client scripts of the repository only register event handlers
    with the host framework: a form [refresh] hook or a list-view [onload]
    hook adds buttons, a click on a button issues a remote call
    ([frappe.call]), and the call's [callback] / [error] closures run when the
    server answers.

    The embedding is shallow.  A handler is a Rocq function that returns the
    host-API commands the JavaScript body performs, in program order; a
    closure handed to the host ([function () {...}], [(response) => {...}])
    is a Rocq function from the state that closure reads when it finally
    runs to the commands it performs.  A small page model executes the
    commands and delivers the events (click, server success, server failure,
    field edit). *)

From Stdlib Require Import List String ZArith Lia.
Import ListNotations.
Open Scope string_scope.
Open Scope list_scope.
Set Warnings "-register-all".

(** ** JavaScript values *)

(** Values are only ever read from the document and forwarded; numbers are
    never computed with, so an integer stands for a number. *)
Inductive JsValue : Type :=
| JUndefined
| JNull
| JBool (b : bool)
| JNum (n : Z)
| JStr (s : string)
| JArr (elems : list JsValue)
| JObj (fields : list (string * JsValue)).

(** An object is kept as its own properties in insertion order, the way an
    object literal lists them. *)
Definition JsObject : Type := list (string * JsValue).

(** [o.k]: the value of property [k], [undefined] when [o] has none. *)
Fixpoint get (o : JsObject) (k : string) : JsValue :=
  match o with
  | [] => JUndefined
  | (k', v) :: rest => if String.eqb k k' then v else get rest k
  end.

(** The property names of an object, in order. *)
Definition keys (o : JsObject) : list string := map fst o.

(** [v === false]. *)
Definition is_strictly_false (v : JsValue) : bool :=
  match v with
  | JBool false => true
  | _ => false
  end.

(** ** The host framework, as far as the scripts use it *)

(** [frm]: the form object handed to [refresh].  [frm.doc] is the on-screen
    document; [frm.is_new()] tells whether it was never saved.  The form is a
    mutable object shared with the closures, so a closure receives the form
    as it is when the closure runs. *)
Record Form : Type := {
  doc : JsObject;
  is_new : bool
}.

(** Globals read by the scripts: [frappe.boot.sysdefaults.company] and the
    translation function [__]. *)
Record Host : Type := {
  sysdefaults_company : JsValue;
  translate : string -> string
}.

(** Host-API calls a handler body can make.  [frappe_call] carries the
    options object of [frappe.call]: [method], [args], [freeze],
    [freeze_message] ([None] when the option is absent) and the two
    closures.  The value [frappe.call] returns is dropped by every call site
    (each one is an expression statement), so the command binds nothing. *)
Inductive Cmd : Type :=
| frappe_call (method : string) (args : JsObject)
              (freeze : bool) (freeze_message : option string)
              (callback : JsObject -> list Cmd)
              (error : JsValue -> list Cmd)
| frappe_msgprint (msg : string)
| console_log (msg : string)
| add_custom_button (label : string) (click : Form -> list Cmd)
                    (group : option string)
| add_inner_button (label : string) (click : Form -> list Cmd).

(** A form [refresh] hook and a list-view [onload] hook.  The hook reads the
    host globals when it fires. *)
Definition RefreshHook : Type := Host -> Form -> list Cmd.
Definition OnloadHook : Type := Host -> list Cmd.

(** Top-level statements of a client script.  Every script of the repository
    is a sequence of these three forms; the doctype is always passed through
    the identifier bound by the preceding [const]. *)
Inductive Stmt : Type :=
| const_decl (name : string) (init : string)
    (* const name = "init"; *)
| form_on (doctype_ident : string) (refresh : RefreshHook)
    (* frappe.ui.form.on(ident, { refresh: ... }); *)
| listview_settings_assign (doctype_ident : string) (onload : OnloadHook).
    (* frappe.listview_settings[ident] = { onload: ... }; *)

(** ** etims_user.js *)

Module EtimsUser.

(** [refresh: async function (frm)]; the body has no [await], so it runs
    to its end when the hook fires. *)
Definition refresh (h : Host) (frm : Form) : list Cmd :=
  let companyName := sysdefaults_company h in
  if negb (is_new frm) then
    [ add_custom_button
        (translate h "Submit Branch User Details")
        (fun frm =>
           [ frappe_call
               "kra_etims_frappe.kra_etims.apis.apis.save_branch_user_details"
               [ ("request_data",
                  JObj [ ("name", get (doc frm) "name");
                         ("company_name", companyName);
                         ("user_id", get (doc frm) "system_user");
                         ("full_names", get (doc frm) "users_full_names");
                         ("branch_id", get (doc frm) "custom_etims_branch_id");
                         ("registration_id", get (doc frm) "owner");
                         ("modifier_id", get (doc frm) "modified_by") ]) ]
               true
               (Some (translate h "Sending request to eTIMS… Please wait"))
               (fun response =>
                  [ frappe_msgprint "Request queued. Please check in later." ])
               (fun r => []) ])
        (Some (translate h "eTims Actions")) ]
  else [].

Definition script : list Stmt :=
  [ const_decl "doctypeName" "eTims User";
    form_on "doctypeName" refresh ].

End EtimsUser.

(** ** etims_registered_imported_item_list.js *)

Module EtimsRegisteredImportedItemList.

Definition onload (h : Host) : list Cmd :=
  let companyName := sysdefaults_company h in
  [ add_inner_button
      (translate h "Get Imported Items")
      (fun listview =>
         [ frappe_call
             "kra_etims_frappe.kra_etims.apis.apis.perform_import_item_search_all_branches"
             [ ("request_data", JObj [ ("company_name", companyName) ]) ]
             true
             (Some (translate h "Sending request to eTIMS… Please wait"))
             (fun response => [])
             (fun error => []) ]) ].

Definition script : list Stmt :=
  [ const_decl "doctypeName" "eTims Registered Imported Item";
    listview_settings_assign "doctypeName" onload ].

End EtimsRegisteredImportedItemList.

(** ** etims_registered_stock_movement_list.js

    Lines 26 to 76 of the file are commented out and are not part of the
    program. *)

Module EtimsRegisteredStockMovementList.

Definition onload (h : Host) : list Cmd :=
  let companyName := sysdefaults_company h in
  [ add_inner_button
      (translate h "Get Stock Movements")
      (fun listview =>
         [ frappe_call
             "kra_etims_frappe.kra_etims_frappe.apis.apis.perform_stock_movement_search_all_branches"
             [ ("request_data", JObj [ ("company_name", companyName) ]) ]
             false None
             (fun response => [])
             (fun error => []) ]) ].

Definition script : list Stmt :=
  [ const_decl "doctypeName" "eTims Registered Stock Movement";
    listview_settings_assign "doctypeName" onload ].

End EtimsRegisteredStockMovementList.

(** ** overrides/client/branch_list.js

    One file holding four registrations, each introduced by its own
    [const doctypeName]. *)

Module BranchList.

(** Lines 3 to 25: the Branch list view. *)
Definition branch_onload (h : Host) : list Cmd :=
  let companyName := sysdefaults_company h in
  [ add_inner_button
      (translate h "Get Branches")
      (fun listview =>
         [ frappe_call
             "kra_etims_frappe.kra_etims_frappe.apis.apis.search_branch_request"
             [ ("request_data", JObj [ ("company_name", companyName) ]) ]
             false None
             (fun response =>
                [ console_log "Request queued. Please check in later" ])
             (fun error => []) ]) ].

(** Lines 29 to 163: the eTims Registered Purchases form.  The blocks at
    lines 57 to 77 and 139 to 160 are commented out. *)
Definition purchases_refresh (h : Host) (frm : Form) : list Cmd :=
  let companyName := sysdefaults_company h in
  if negb (is_new frm) then
    [ add_custom_button
        (translate h "Create Supplier")
        (fun frm =>
           [ frappe_call
               "kra_etims_frappe.kra_etims_frappe.apis.apis.create_supplier_from_fetched_registered_purchases"
               [ ("request_data",
                  JObj [ ("name", get (doc frm) "name");
                         ("company_name", companyName);
                         ("supplier_name", get (doc frm) "supplier_name");
                         ("supplier_pin", get (doc frm) "supplier_pin");
                         ("supplier_branch_id",
                          get (doc frm) "supplier_branch_id") ]) ]
               false None
               (fun response => [])
               (fun error => []) ])
        (Some (translate h "eTims Actions"));
      frappe_call
        "kra_etims_frappe.kra_etims_frappe.doctype.etims_registered_purchases.etims_registered_purchases.validate_item_mapped_and_registered"
        [ ("items", get (doc frm) "items") ]
        false None
        (fun response =>
           if is_strictly_false (get response "message") then
             [ add_custom_button
                 (translate h "Create Items")
                 (fun frm =>
                    [ frappe_call
                        "kra_etims_frappe.kra_etims_frappe.apis.apis.create_items_from_fetched_registered_purchases"
                        [ ("request_data",
                           JObj [ ("name", get (doc frm) "name");
                                  ("company_name", companyName);
                                  ("items", get (doc frm) "items") ]) ]
                        false None
                        (fun response => [])
                        (fun error => []) ])
                 (Some (translate h "eTims Actions")) ]
           else [])
        (fun error =>
           [ frappe_msgprint (translate h "Failed to validate items.") ]);
      add_custom_button
        (translate h "Create Purchase Invoice")
        (fun frm =>
           [ frappe_call
               "kra_etims_frappe.kra_etims_frappe.apis.apis.create_purchase_invoice_from_request"
               [ ("request_data",
                  JObj [ ("name", get (doc frm) "name");
                         ("company_name", companyName);
                         ("supplier_name", get (doc frm) "supplier_name");
                         ("supplier_pin", get (doc frm) "supplier_pin");
                         ("supplier_branch_id",
                          get (doc frm) "supplier_branch_id");
                         ("supplier_invoice_no",
                          get (doc frm) "supplier_invoice_number");
                         ("supplier_invoice_date", get (doc frm) "sales_date");
                         ("items", get (doc frm) "items") ]) ]
               false None
               (fun response => [])
               (fun error => []) ])
        (Some (translate h "eTims Actions")) ]
  else [].

(** Lines 167 to 190: the eTims Registered Purchases list view. *)
Definition purchases_onload (h : Host) : list Cmd :=
  let companyName := sysdefaults_company h in
  [ add_inner_button
      (translate h "Get Raised Purchases")
      (fun listview =>
         [ frappe_call
             "kra_etims_frappe.kra_etims_frappe.apis.apis.perform_purchases_search_all_branches"
             [ ("request_data", JObj [ ("company_name", companyName) ]) ]
             false None
             (fun response => [])
             (fun error => []) ]) ].

(** Lines 194 to 217: the eTims User list view. *)
Definition user_onload (h : Host) : list Cmd :=
  let companyName := sysdefaults_company h in
  [ add_inner_button
      (translate h "Create from Current System Users")
      (fun listview =>
         [ frappe_call
             "kra_etims_frappe.kra_etims_frappe.apis.apis.create_branch_user"
             [ ("request_data", JObj [ ("company_name", companyName) ]) ]
             false None
             (fun response => [])
             (fun error => []) ]) ].

Definition script : list Stmt :=
  [ const_decl "doctypeName" "Branch";
    listview_settings_assign "doctypeName" branch_onload;
    const_decl "doctypeName" "eTims Registered Purchases";
    form_on "doctypeName" purchases_refresh;
    const_decl "doctypeName" "eTims Registered Purchases";
    listview_settings_assign "doctypeName" purchases_onload;
    const_decl "doctypeName" "eTims User";
    listview_settings_assign "doctypeName" user_onload ].

End BranchList.

(** ** Loading a script

    The host evaluates a client script as one JavaScript source text.  Two
    rules of the language decide what a script of [Stmt]s does: a source text
    that declares one [const] name twice in the same scope is rejected as a
    whole before its first statement runs (an early [SyntaxError]), and an
    identifier is resolved against the [const] bindings already evaluated. *)

Inductive JsError : Type :=
| SyntaxError (redeclared : string)
| ReferenceError (ident : string).

(** What the scripts register: the [refresh] hooks given to
    [frappe.ui.form.on] and the [onload] hooks stored in
    [frappe.listview_settings], both keyed by doctype. *)
Record Registry : Type := {
  form_events : list (string * RefreshHook);
  listview_settings : list (string * OnloadHook)
}.

Definition empty_registry : Registry :=
  {| form_events := []; listview_settings := [] |}.

Definition lexically_declared_names (s : list Stmt) : list string :=
  flat_map (fun st => match st with
                      | const_decl name _ => [name]
                      | _ => []
                      end) s.

Fixpoint first_duplicate (names : list string) : option string :=
  match names with
  | [] => None
  | x :: rest =>
      if existsb (String.eqb x) rest then Some x else first_duplicate rest
  end.

Fixpoint resolve (env : list (string * string)) (ident : string)
  : option string :=
  match env with
  | [] => None
  | (x, v) :: rest => if String.eqb ident x then Some v else resolve rest ident
  end.

(** [frappe.ui.form.on] adds a handler; assigning
    [frappe.listview_settings[d]] replaces the entry of [d]. *)
Definition register_form (d : string) (f : RefreshHook) (reg : Registry)
  : Registry :=
  {| form_events := form_events reg ++ [(d, f)];
     listview_settings := listview_settings reg |}.

Definition register_listview (d : string) (f : OnloadHook) (reg : Registry)
  : Registry :=
  {| form_events := form_events reg;
     listview_settings :=
       filter (fun e => negb (String.eqb (fst e) d)) (listview_settings reg)
       ++ [(d, f)] |}.

(** Statements run in order; an error stops the script and leaves what the
    earlier statements registered. *)
Fixpoint eval_stmts (s : list Stmt) (env : list (string * string))
         (reg : Registry) : Registry * option JsError :=
  match s with
  | [] => (reg, None)
  | const_decl name init :: rest => eval_stmts rest ((name, init) :: env) reg
  | form_on ident f :: rest =>
      match resolve env ident with
      | Some d => eval_stmts rest env (register_form d f reg)
      | None => (reg, Some (ReferenceError ident))
      end
  | listview_settings_assign ident f :: rest =>
      match resolve env ident with
      | Some d => eval_stmts rest env (register_listview d f reg)
      | None => (reg, Some (ReferenceError ident))
      end
  end.

Definition load_script (s : list Stmt) (reg : Registry)
  : Registry * option JsError :=
  match first_duplicate (lexically_declared_names s) with
  | Some name => (reg, Some (SyntaxError name))
  | None => eval_stmts s [] reg
  end.

(** ** The page

    What a user can observe of a form or list page, and what the handlers'
    commands do to it. *)

Inductive ButtonKind : Type :=
| custom_button (group : option string)
| inner_button.

Record Button : Type := {
  btn_label : string;
  btn_kind : ButtonKind;
  btn_click : Form -> list Cmd
}.

(** What goes to the server for one [frappe.call]. *)
Record Request : Type := {
  req_method : string;
  req_args : JsObject;
  req_freeze : bool;
  req_freeze_message : option string
}.

(** A call the server has not answered yet, with its two closures. *)
Record InFlight : Type := {
  rq : Request;
  on_success : JsObject -> list Cmd;
  on_error : JsValue -> list Cmd
}.

Record Page : Type := {
  form : Form;
  buttons : list Button;
  in_flight : list InFlight;
  issued : list Request;       (* every call sent so far, oldest first *)
  dialogs : list string;       (* frappe.msgprint *)
  console : list string        (* console.log *)
}.

Definition blank_page (frm : Form) : Page :=
  {| form := frm; buttons := []; in_flight := []; issued := [];
     dialogs := []; console := [] |}.

Definition add_button (b : Button) (p : Page) : Page :=
  {| form := form p; buttons := buttons p ++ [b];
     in_flight := in_flight p; issued := issued p;
     dialogs := dialogs p; console := console p |}.

Definition exec1 (p : Page) (c : Cmd) : Page :=
  match c with
  | frappe_call m a fz fm cb er =>
      let r := {| req_method := m; req_args := a;
                  req_freeze := fz; req_freeze_message := fm |} in
      {| form := form p; buttons := buttons p;
         in_flight :=
           in_flight p ++ [ {| rq := r; on_success := cb; on_error := er |} ];
         issued := issued p ++ [r];
         dialogs := dialogs p; console := console p |}
  | frappe_msgprint msg =>
      {| form := form p; buttons := buttons p;
         in_flight := in_flight p; issued := issued p;
         dialogs := dialogs p ++ [msg]; console := console p |}
  | console_log msg =>
      {| form := form p; buttons := buttons p;
         in_flight := in_flight p; issued := issued p;
         dialogs := dialogs p; console := console p ++ [msg] |}
  | add_custom_button l k g =>
      add_button {| btn_label := l; btn_kind := custom_button g;
                    btn_click := k |} p
  | add_inner_button l k =>
      add_button {| btn_label := l; btn_kind := inner_button;
                    btn_click := k |} p
  end.

Definition exec (cs : list Cmd) (p : Page) : Page := fold_left exec1 cs p.

(** The blocking overlay is up while a call made with [freeze: true] is in
    flight; it shows that call's [freeze_message]. *)
Definition overlay_of (cs : list InFlight) : list (option string) :=
  map (fun c => req_freeze_message (rq c))
      (filter (fun c => req_freeze (rq c)) cs).

Definition overlay (p : Page) : list (option string) :=
  overlay_of (in_flight p).

(** What can happen to a page after its hook ran. *)
Inductive Event : Type :=
| click (i : nat)                            (* the user clicks button [i] *)
| succeed (i : nat) (response : JsObject)    (* the server answers call [i] *)
| fail (i : nat) (err : JsValue)             (* call [i] fails *)
| edit (field : string) (v : JsValue).       (* the user changes a field *)

Fixpoint remove_nth {A : Type} (i : nat) (l : list A) : list A :=
  match l, i with
  | [], _ => []
  | _ :: rest, O => rest
  | x :: rest, S j => x :: remove_nth j rest
  end.

Fixpoint set_field (k : string) (v : JsValue) (o : JsObject) : JsObject :=
  match o with
  | [] => [(k, v)]
  | (k', v') :: rest =>
      if String.eqb k k' then (k, v) :: rest else (k', v') :: set_field k v rest
  end.

Definition answered (i : nat) (p : Page) : Page :=
  {| form := form p; buttons := buttons p;
     in_flight := remove_nth i (in_flight p); issued := issued p;
     dialogs := dialogs p; console := console p |}.

Definition edited (k : string) (v : JsValue) (p : Page) : Page :=
  {| form := {| doc := set_field k v (doc (form p));
                is_new := is_new (form p) |};
     buttons := buttons p; in_flight := in_flight p; issued := issued p;
     dialogs := dialogs p; console := console p |}.

Definition step (p : Page) (e : Event) : Page :=
  match e with
  | click i =>
      match nth_error (buttons p) i with
      | Some b => exec (btn_click b (form p)) p
      | None => p
      end
  | succeed i response =>
      match nth_error (in_flight p) i with
      | Some c => exec (on_success c response) (answered i p)
      | None => p
      end
  | fail i err =>
      match nth_error (in_flight p) i with
      | Some c => exec (on_error c err) (answered i p)
      | None => p
      end
  | edit k v => edited k v p
  end.

Definition run (es : list Event) (p : Page) : Page := fold_left step es p.

(** ** The hooks of the repository *)

Inductive Hook : Type :=
| form_hook (f : RefreshHook)
| list_hook (f : OnloadHook).

Definition form_hooks : list Hook :=
  [ form_hook EtimsUser.refresh;
    form_hook BranchList.purchases_refresh ].

Definition list_hooks : list Hook :=
  [ list_hook EtimsRegisteredImportedItemList.onload;
    list_hook BranchList.branch_onload;
    list_hook BranchList.purchases_onload;
    list_hook BranchList.user_onload;
    list_hook EtimsRegisteredStockMovementList.onload ].

Definition hooks : list Hook := form_hooks ++ list_hooks.

(** The host fires the hook with the page's form (a list page has no
    document; its hook ignores the form). *)
Definition fire (h : Host) (k : Hook) (frm : Form) : list Cmd :=
  match k with
  | form_hook f => f h frm
  | list_hook f => f h
  end.

(** The page right after its hook ran. *)
Definition open_page (h : Host) (k : Hook) (frm : Form) : Page :=
  exec (fire h k frm) (blank_page frm).

(** The page after the hook and a sequence of events. *)
Definition session (h : Host) (k : Hook) (frm : Form) (es : list Event)
  : Page :=
  run es (open_page h k frm).

(** ** What a list of commands adds to a page *)

Definition calls_in (cs : list Cmd) : list Request :=
  flat_map (fun c => match c with
                     | frappe_call m a fz fm _ _ =>
                         [ {| req_method := m; req_args := a;
                              req_freeze := fz; req_freeze_message := fm |} ]
                     | _ => []
                     end) cs.

Definition in_flight_in (cs : list Cmd) : list InFlight :=
  flat_map (fun c => match c with
                     | frappe_call m a fz fm cb er =>
                         [ {| rq := {| req_method := m; req_args := a;
                                       req_freeze := fz;
                                       req_freeze_message := fm |};
                              on_success := cb; on_error := er |} ]
                     | _ => []
                     end) cs.

Definition dialogs_in (cs : list Cmd) : list string :=
  flat_map (fun c => match c with
                     | frappe_msgprint msg => [msg]
                     | _ => []
                     end) cs.

Definition console_in (cs : list Cmd) : list string :=
  flat_map (fun c => match c with
                     | console_log msg => [msg]
                     | _ => []
                     end) cs.

Definition buttons_in (cs : list Cmd) : list Button :=
  flat_map (fun c => match c with
                     | add_custom_button l k g =>
                         [ {| btn_label := l; btn_kind := custom_button g;
                              btn_click := k |} ]
                     | add_inner_button l k =>
                         [ {| btn_label := l; btn_kind := inner_button;
                              btn_click := k |} ]
                     | _ => []
                     end) cs.

(** The command a button, or a call in flight, was made by. *)
Definition cmd_of_button (b : Button) : Cmd :=
  match btn_kind b with
  | custom_button g => add_custom_button (btn_label b) (btn_click b) g
  | inner_button => add_inner_button (btn_label b) (btn_click b)
  end.

Definition cmd_of_call (c : InFlight) : Cmd :=
  frappe_call (req_method (rq c)) (req_args (rq c)) (req_freeze (rq c))
              (req_freeze_message (rq c)) (on_success c) (on_error c).

(** ** Properties of every command a hook can ever run

    [hered Q n c]: [Q] holds of [c] and of every command that the closures
    inside [c] produce, whatever they are run with, down to [n] closures
    deep. *)
Fixpoint hered (Q : Cmd -> Prop) (n : nat) (c : Cmd) : Prop :=
  Q c /\
  match n with
  | O => True
  | S n' =>
      match c with
      | frappe_call _ _ _ _ cb er =>
          (forall r, Forall (hered Q n') (cb r)) /\
          (forall e, Forall (hered Q n') (er e))
      | add_custom_button _ k _ => forall frm, Forall (hered Q n') (k frm)
      | add_inner_button _ k => forall frm, Forall (hered Q n') (k frm)
      | _ => True
      end
  end.

Definition page_ok (Q : Cmd -> Prop) (p : Page) : Prop :=
  forall n,
    Forall (fun b => hered Q n (cmd_of_button b)) (buttons p) /\
    Forall (fun c => hered Q n (cmd_of_call c)) (in_flight p).

(** ** Endpoints *)

Definition save_branch_user_details : string :=
  "kra_etims_frappe.kra_etims.apis.apis.save_branch_user_details".
Definition perform_import_item_search_all_branches : string :=
  "kra_etims_frappe.kra_etims.apis.apis.perform_import_item_search_all_branches".
Definition search_branch_request : string :=
  "kra_etims_frappe.kra_etims_frappe.apis.apis.search_branch_request".
Definition create_supplier_from_fetched_registered_purchases : string :=
  "kra_etims_frappe.kra_etims_frappe.apis.apis.create_supplier_from_fetched_registered_purchases".
Definition validate_item_mapped_and_registered : string :=
  "kra_etims_frappe.kra_etims_frappe.doctype.etims_registered_purchases.etims_registered_purchases.validate_item_mapped_and_registered".
Definition create_items_from_fetched_registered_purchases : string :=
  "kra_etims_frappe.kra_etims_frappe.apis.apis.create_items_from_fetched_registered_purchases".
Definition create_purchase_invoice_from_request : string :=
  "kra_etims_frappe.kra_etims_frappe.apis.apis.create_purchase_invoice_from_request".
Definition perform_purchases_search_all_branches : string :=
  "kra_etims_frappe.kra_etims_frappe.apis.apis.perform_purchases_search_all_branches".
Definition create_branch_user : string :=
  "kra_etims_frappe.kra_etims_frappe.apis.apis.create_branch_user".
Definition perform_stock_movement_search_all_branches : string :=
  "kra_etims_frappe.kra_etims_frappe.apis.apis.perform_stock_movement_search_all_branches".

(** The external-interface table of the specification (section 6), row by
    row, each logical endpoint name replaced by the method path the scripts
    call it by.  This definition follows the specification, not the code; the
    handlers above are compared with it. *)
Definition spec_interface_table : list (string * list string) :=
  [ (save_branch_user_details,
     ["name"; "company_name"; "user_id"; "full_names"; "branch_id";
      "registration_id"; "modifier_id"]);
    (perform_import_item_search_all_branches, ["company_name"]);
    (search_branch_request, ["company_name"]);
    (create_supplier_from_fetched_registered_purchases,
     ["name"; "company_name"; "supplier_name"; "supplier_pin";
      "supplier_branch_id"]);
    (validate_item_mapped_and_registered, ["items"]);
    (create_items_from_fetched_registered_purchases,
     ["name"; "company_name"; "items"]);
    (create_purchase_invoice_from_request,
     ["name"; "company_name"; "supplier_name"; "supplier_pin";
      "supplier_branch_id"; "supplier_invoice_no"; "supplier_invoice_date";
      "items"]);
    (perform_purchases_search_all_branches, ["company_name"]);
    (create_branch_user, ["company_name"]);
    (perform_stock_movement_search_all_branches, ["company_name"]) ].

Fixpoint spec_fields_from (t : list (string * list string)) (m : string)
  : option (list string) :=
  match t with
  | [] => None
  | (m', fs) :: rest =>
      if String.eqb m m' then Some fs else spec_fields_from rest m
  end.

Definition spec_fields (m : string) : option (list string) :=
  spec_fields_from spec_interface_table m.

(** ** Predicates on single commands, one per statement below *)

(** A failure closure as the code writes it: empty, except the one of the
    validation call. *)
Definition error_closure_as_written (h : Host) (c : Cmd) : Prop :=
  match c with
  | frappe_call m _ _ _ _ er =>
      (m <> validate_item_mapped_and_registered -> forall e, er e = []) /\
      (m = validate_item_mapped_and_registered ->
       forall e,
         er e = [ frappe_msgprint (translate h "Failed to validate items.") ])
  | _ => True
  end.

(** What a success closure shows: a dialog for one endpoint, a console line
    for another, nothing for the rest. *)
Definition ack_dialogs (m : string) : list string :=
  if String.eqb m save_branch_user_details
  then [ "Request queued. Please check in later." ] else [].

Definition ack_console (m : string) : list string :=
  if String.eqb m search_branch_request
  then [ "Request queued. Please check in later" ] else [].

Definition success_closure_as_written (c : Cmd) : Prop :=
  match c with
  | frappe_call m _ _ _ cb _ =>
      forall r,
        dialogs_in (cb r) = ack_dialogs m /\
        console_in (cb r) = ack_console m /\
        calls_in (cb r) = [] /\
        (m <> save_branch_user_details -> m <> search_branch_request ->
         m <> validate_item_mapped_and_registered -> cb r = [])
  | _ => True
  end.

(** A click closure that issues one call, to endpoint [m], with a
    [request_data] object of the fields the table gives for [m]. *)
Definition one_call_to (m : string) (k : Form -> list Cmd) : Prop :=
  forall frm, exists payload fz fm cb er,
    k frm = [ frappe_call m [ ("request_data", JObj payload) ] fz fm cb er ] /\
    spec_fields m = Some (keys payload).

Definition button_issues_one_call (c : Cmd) : Prop :=
  match c with
  | add_custom_button _ k _ => exists m, one_call_to m k
  | add_inner_button _ k => exists m, one_call_to m k
  | _ => True
  end.

(** No closure of a call issues a call; a click closure only issues
    calls. *)
Definition fire_and_forget (c : Cmd) : Prop :=
  match c with
  | frappe_call _ _ _ _ cb er =>
      (forall r, calls_in (cb r) = []) /\ (forall e, calls_in (er e) = [])
  | add_custom_button _ k _ =>
      forall frm, dialogs_in (k frm) = [] /\ console_in (k frm) = [] /\
                  buttons_in (k frm) = []
  | add_inner_button _ k =>
      forall frm, dialogs_in (k frm) = [] /\ console_in (k frm) = [] /\
                  buttons_in (k frm) = []
  | _ => True
  end.

(** ** The two claims of the specification that the code does not meet, as
    the specification words them *)

(** "Client handlers register empty or comment-only error callbacks": no
    failure closure of any call does anything. *)
Definition every_error_callback_is_empty : Prop :=
  forall h k frm es i c e,
    In k hooks ->
    nth_error (in_flight (session h k frm es)) i = Some c ->
    on_error c e = [].

(** "Success yields a generic queued acknowledgment": the answer to any call
    puts a message in front of the user. *)
Definition every_success_is_acknowledged : Prop :=
  forall h k frm es i c r,
    In k hooks ->
    nth_error (in_flight (session h k frm es)) i = Some c ->
    exists msg,
      dialogs (step (session h k frm es) (succeed i r)) =
      dialogs (session h k frm es) ++ [msg].

(** ** Sample data *)

Definition edits_of (l : list (string * JsValue)) : list Event :=
  map (fun kv => edit (fst kv) (snd kv)) l.

Definition demo_host : Host :=
  {| sysdefaults_company := JStr "Acme Ltd"; translate := fun s => s |}.

Definition saved_user : Form :=
  {| doc := [ ("name", JStr "USR-0001");
              ("owner", JStr "admin@example.com");
              ("modified_by", JStr "clerk@example.com");
              ("system_user", JStr "jane@example.com");
              ("users_full_names", JStr "Jane Doe");
              ("custom_etims_branch_id", JStr "00") ];
     is_new := false |}.

Definition saved_purchase : Form :=
  {| doc := [ ("name", JStr "PUR-0001");
              ("supplier_name", JStr "Mega Traders");
              ("supplier_pin", JStr "P000000000A");
              ("supplier_branch_id", JStr "00");
              ("supplier_invoice_number", JNum 17);
              ("sales_date", JStr "2024-05-01");
              ("items", JArr [ JObj [ ("item_name", JStr "Sugar") ] ]) ];
     is_new := false |}.

Definition unsaved_purchase : Form :=
  {| doc := [ ("supplier_name", JStr "Mega Traders") ]; is_new := true |}.

Definition list_form : Form := {| doc := []; is_new := false |}.

(** ** Further predicates on single commands *)

(** Where a hook puts its buttons: a form hook in the group "eTims Actions"
    of the form's custom buttons, a list hook among the page's inner
    buttons. *)
Definition kind_for (h : Host) (k : Hook) : ButtonKind :=
  match k with
  | form_hook _ => custom_button (Some (translate h "eTims Actions"))
  | list_hook _ => inner_button
  end.

Definition button_placed_for (h : Host) (k : Hook) (c : Cmd) : Prop :=
  match c with
  | add_custom_button _ _ g => custom_button g = kind_for h k
  | add_inner_button _ _ => inner_button = kind_for h k
  | _ => True
  end.

(** The two endpoints called with [freeze: true], and the message they
    freeze the page with. *)
Definition freezes (m : string) : bool :=
  String.eqb m save_branch_user_details
  || String.eqb m perform_import_item_search_all_branches.

Definition freeze_as_written (h : Host) (c : Cmd) : Prop :=
  match c with
  | frappe_call m _ fz fm _ _ =>
      fz = freezes m /\
      fm = if fz
           then Some (translate h "Sending request to eTIMS… Please wait")
           else None
  | _ => True
  end.

(** The texts the scripts can show: two dialogs, on form pages only, and
    one console line. *)
Definition dialog_for (h : Host) (k : Hook) (msg : string) : Prop :=
  match k with
  | form_hook _ =>
      msg = "Request queued. Please check in later." \/
      msg = translate h "Failed to validate items."
  | list_hook _ => False
  end.

Definition known_console_line (msg : string) : Prop :=
  msg = "Request queued. Please check in later".

Definition message_as_written (h : Host) (k : Hook) (c : Cmd) : Prop :=
  match c with
  | frappe_msgprint msg => dialog_for h k msg
  | console_log msg => known_console_line msg
  | _ => True
  end.

(** Calls in flight whose answer can still add a button. *)
Definition is_validation (c : InFlight) : bool :=
  String.eqb (req_method (rq c)) validate_item_mapped_and_registered.

Definition pending_validations (p : Page) : nat :=
  List.length (filter is_validation (in_flight p)).

(** Who can add a button after the hook ran: only the success closure of a
    validation call, and at most the Create Items button; no closure of a
    call issues a call, and no click issues a validation call. *)
Definition late_buttons_as_written (h : Host) (c : Cmd) : Prop :=
  match c with
  | frappe_call m _ _ _ cb er =>
      (forall e, buttons_in (er e) = [] /\ in_flight_in (er e) = []) /\
      (forall r, in_flight_in (cb r) = []) /\
      (forall r, buttons_in (cb r) = [] \/
                 (String.eqb m validate_item_mapped_and_registered = true /\
                  exists b, buttons_in (cb r) = [b] /\
                            btn_label b = translate h "Create Items"))
  | add_custom_button _ k _ =>
      forall frm, buttons_in (k frm) = [] /\
                  filter is_validation (in_flight_in (k frm)) = []
  | add_inner_button _ k =>
      forall frm, buttons_in (k frm) = [] /\
                  filter is_validation (in_flight_in (k frm)) = []
  | _ => True
  end.

(** ** Looking a doctype up in the registry *)

(** The [refresh] handlers of a doctype, in the order the host runs them. *)
Definition form_handlers (reg : Registry) (d : string) : list RefreshHook :=
  map snd (filter (fun e => String.eqb (fst e) d) (form_events reg)).

(** [frappe.listview_settings[d]]. *)
Definition listview_hook (reg : Registry) (d : string) : option OnloadHook :=
  match filter (fun e => String.eqb (fst e) d) (listview_settings reg) with
  | [] => None
  | e :: _ => Some (snd e)
  end.

(** How many of the events are clicks. *)
Definition count_clicks (es : list Event) : nat :=
  List.length (filter (fun e => match e with click _ => true | _ => false end)
                      es).

(** ** Proof automation

    [hooks_hered leaf] walks a hook's commands and the commands of every
    closure in them, and leaves the property of each single command to
    [leaf]. *)

Ltac split_ifs :=
  repeat match goal with
         | |- context [if ?b then _ else _] => destruct b
         end.

Ltac by_endpoint :=
  unfold save_branch_user_details, search_branch_request,
    validate_item_mapped_and_registered in *;
  first [ reflexivity
        | discriminate
        | match goal with H : ?m <> ?m |- _ => exfalso; apply H; reflexivity end ].

Ltac hered_step leaf :=
  match goal with
  | |- Forall _ [] => apply Forall_nil
  | |- Forall _ (_ :: _) => apply Forall_cons
  | |- Forall _ (if ?b then _ else _) => destruct b
  | |- hered _ ?n _ => destruct n; simpl; split
  | |- True => exact I
  | |- _ /\ _ => split
  | |- forall _, _ => intro
  | |- _ => solve [leaf]
  end.

Ltac each_hook H :=
  unfold hooks in H; simpl in H;
  repeat (destruct H as [<-|H]; [|]); try contradiction;
  simpl;
  unfold EtimsUser.refresh, BranchList.purchases_refresh,
    EtimsRegisteredImportedItemList.onload, BranchList.branch_onload,
    BranchList.purchases_onload, BranchList.user_onload,
    EtimsRegisteredStockMovementList.onload.

Ltac hooks_hered leaf :=
  let H := fresh "Hk" in
  intros ? ? ? H ?;
  each_hook H;
  try match goal with
      | |- context [is_new ?f] => destruct (is_new f); simpl
      end;
  repeat hered_step leaf.

(** * Proofs *)

(** ** Executing commands *)

Lemma is_strictly_false_iff (v : JsValue) :
  is_strictly_false v = true <-> v = JBool false.
Proof.
  split.
  - destruct v as [| |[|]| | | |]; simpl; intro H;
      (discriminate H || reflexivity).
  - intros ->. reflexivity.
Qed.

Lemma exec_effect (cs : list Cmd) :
  forall p,
    exec cs p =
    {| form := form p;
       buttons := buttons p ++ buttons_in cs;
       in_flight := in_flight p ++ in_flight_in cs;
       issued := issued p ++ calls_in cs;
       dialogs := dialogs p ++ dialogs_in cs;
       console := console p ++ console_in cs |}.
Proof.
  induction cs as [|c cs IH]; intro p.
  - destruct p; simpl. rewrite !app_nil_r. reflexivity.
  - change (exec (c :: cs) p) with (exec cs (exec1 p c)). rewrite IH.
    destruct c; simpl; rewrite <- ?app_assoc; reflexivity.
Qed.

Lemma issued_exec (cs : list Cmd) (p : Page) :
  issued (exec cs p) = issued p ++ calls_in cs.
Proof. rewrite exec_effect. reflexivity. Qed.

Lemma dialogs_exec (cs : list Cmd) (p : Page) :
  dialogs (exec cs p) = dialogs p ++ dialogs_in cs.
Proof. rewrite exec_effect. reflexivity. Qed.

Lemma console_exec (cs : list Cmd) (p : Page) :
  console (exec cs p) = console p ++ console_in cs.
Proof. rewrite exec_effect. reflexivity. Qed.

Lemma buttons_exec (cs : list Cmd) (p : Page) :
  buttons (exec cs p) = buttons p ++ buttons_in cs.
Proof. rewrite exec_effect. reflexivity. Qed.

Lemma in_flight_exec (cs : list Cmd) (p : Page) :
  in_flight (exec cs p) = in_flight p ++ in_flight_in cs.
Proof. rewrite exec_effect. reflexivity. Qed.

Lemma form_exec (cs : list Cmd) (p : Page) : form (exec cs p) = form p.
Proof. rewrite exec_effect. reflexivity. Qed.

Lemma calls_in_in_flight (cs : list Cmd) :
  calls_in cs = map rq (in_flight_in cs).
Proof.
  induction cs as [|c cs IH]; simpl; [reflexivity|].
  rewrite map_app, <- IH. destruct c; reflexivity.
Qed.

Lemma no_calls_no_in_flight (cs : list Cmd) :
  calls_in cs = [] -> in_flight_in cs = [].
Proof.
  rewrite calls_in_in_flight. apply map_eq_nil.
Qed.

Lemma remove_nth_beyond {A : Type} (l : list A) :
  forall i, nth_error l i = None -> remove_nth i l = l.
Proof.
  induction l as [|x l IH]; intros [|i] H; simpl in *;
    try reflexivity; try discriminate.
  rewrite (IH i H). reflexivity.
Qed.

(** Field edits touch the document only. *)
Lemma run_edits (l : list (string * JsValue)) :
  forall p,
    buttons (run (edits_of l) p) = buttons p /\
    in_flight (run (edits_of l) p) = in_flight p /\
    issued (run (edits_of l) p) = issued p /\
    dialogs (run (edits_of l) p) = dialogs p /\
    console (run (edits_of l) p) = console p /\
    is_new (form (run (edits_of l) p)) = is_new (form p).
Proof.
  induction l as [|[k v] l IH]; intro p; simpl.
  - repeat split.
  - apply (IH (edited k v p)).
Qed.

(** A page without buttons and without calls in flight stays so. *)
Lemma run_idle (es : list Event) :
  forall p,
    buttons p = [] -> in_flight p = [] ->
    buttons (run es p) = [] /\ in_flight (run es p) = [] /\
    issued (run es p) = issued p /\ dialogs (run es p) = dialogs p.
Proof.
  induction es as [|e es IH]; intros p Hb Hf; simpl.
  - repeat split; assumption.
  - assert (Hstep : step p e = p \/ exists k v, step p e = edited k v p).
    { destruct e as [i|i r|i err|k v]; simpl.
      - rewrite Hb. destruct i; left; reflexivity.
      - rewrite Hf. destruct i; left; reflexivity.
      - rewrite Hf. destruct i; left; reflexivity.
      - right. eauto. }
    destruct Hstep as [->|[k [v ->]]].
    + apply IH; assumption.
    + apply (IH (edited k v p)); assumption.
Qed.

(** ** Inheritance along a session *)

Section Inheritance.

Variable Q : Cmd -> Prop.

Lemma blank_page_ok (frm : Form) : page_ok Q (blank_page frm).
Proof. intro n; split; constructor. Qed.

Lemma exec1_ok (c : Cmd) (p : Page) :
  (forall n, hered Q n c) -> page_ok Q p -> page_ok Q (exec1 p c).
Proof.
  intros Hc Hp n. destruct (Hp n) as [Hb Hf].
  destruct c; simpl; split; auto;
    apply Forall_app; split; auto; constructor; auto; apply Hc.
Qed.

Lemma exec_ok (cs : list Cmd) :
  forall p, (forall n, Forall (hered Q n) cs) -> page_ok Q p ->
            page_ok Q (exec cs p).
Proof.
  induction cs as [|c cs IH]; intros p Hcs Hp; simpl; auto.
  apply IH.
  - intro n. specialize (Hcs n). inversion Hcs; assumption.
  - apply exec1_ok; auto. intro n. specialize (Hcs n).
    inversion Hcs; assumption.
Qed.

Lemma Forall_remove_nth {A : Type} (P : A -> Prop) (l : list A) :
  forall i, Forall P l -> Forall P (remove_nth i l).
Proof.
  induction l as [|x l IH]; intros i H; simpl.
  - destruct i; constructor.
  - inversion H; subst. destruct i; auto.
    constructor; auto.
Qed.

Lemma answered_ok (i : nat) (p : Page) :
  page_ok Q p -> page_ok Q (answered i p).
Proof.
  intros Hp n. destruct (Hp n) as [Hb Hf]. split; simpl; auto.
  apply Forall_remove_nth; assumption.
Qed.

Lemma click_closure_ok (p : Page) (i : nat) (b : Button) :
  page_ok Q p -> nth_error (buttons p) i = Some b ->
  forall frm n, Forall (hered Q n) (btn_click b frm).
Proof.
  intros Hp Hi frm n. destruct (Hp (S n)) as [Hb _].
  apply nth_error_In in Hi.
  rewrite Forall_forall in Hb. specialize (Hb b Hi).
  unfold cmd_of_button in Hb. destruct (btn_kind b); simpl in Hb;
    destruct Hb as [_ Hb]; apply Hb.
Qed.

Lemma answer_closures_ok (p : Page) (i : nat) (c : InFlight) :
  page_ok Q p -> nth_error (in_flight p) i = Some c ->
  (forall r n, Forall (hered Q n) (on_success c r)) /\
  (forall e n, Forall (hered Q n) (on_error c e)).
Proof.
  intros Hp Hi. apply nth_error_In in Hi.
  split; intros x n; destruct (Hp (S n)) as [_ Hf];
    rewrite Forall_forall in Hf; specialize (Hf c Hi);
    simpl in Hf; destruct Hf as [_ [Hs He]]; auto.
Qed.

Lemma step_ok (p : Page) (e : Event) : page_ok Q p -> page_ok Q (step p e).
Proof.
  intro Hp. destruct e as [i|i r|i err|k v]; simpl.
  - destruct (nth_error (buttons p) i) as [b|] eqn:Hi; auto.
    apply exec_ok; auto. intro n.
    eapply click_closure_ok; eauto.
  - destruct (nth_error (in_flight p) i) as [c|] eqn:Hi; auto.
    apply exec_ok; [|apply answered_ok; assumption].
    intro n. eapply answer_closures_ok; eauto.
  - destruct (nth_error (in_flight p) i) as [c|] eqn:Hi; auto.
    apply exec_ok; [|apply answered_ok; assumption].
    intro n. eapply answer_closures_ok; eauto.
  - intro n. destruct (Hp n). split; assumption.
Qed.

Lemma run_ok (es : list Event) :
  forall p, page_ok Q p -> page_ok Q (run es p).
Proof.
  induction es as [|e es IH]; intros p Hp; simpl; auto.
  apply IH, step_ok, Hp.
Qed.

Lemma session_ok (h : Host) (k : Hook) (frm : Form) (es : list Event) :
  (forall n, Forall (hered Q n) (fire h k frm)) ->
  page_ok Q (session h k frm es).
Proof.
  intro H. apply run_ok, exec_ok; auto. apply blank_page_ok.
Qed.

End Inheritance.

Lemma session_call (Q : Cmd -> Prop) (h : Host) (k : Hook) (frm : Form)
      (es : list Event) (c : InFlight) :
  (forall n, Forall (hered Q n) (fire h k frm)) ->
  In c (in_flight (session h k frm es)) -> Q (cmd_of_call c).
Proof.
  intros H Hc. destruct (session_ok Q h k frm es H 0) as [_ Hf].
  rewrite Forall_forall in Hf. apply (Hf c Hc).
Qed.

Lemma session_button (Q : Cmd -> Prop) (h : Host) (k : Hook) (frm : Form)
      (es : list Event) (b : Button) :
  (forall n, Forall (hered Q n) (fire h k frm)) ->
  In b (buttons (session h k frm es)) -> Q (cmd_of_button b).
Proof.
  intros H Hb. destruct (session_ok Q h k frm es H 0) as [Hf _].
  rewrite Forall_forall in Hf. apply (Hf b Hb).
Qed.

(** ** The hooks, closure by closure *)

Lemma hooks_error_closures (h : Host) :
  forall k frm, In k hooks ->
    forall n, Forall (hered (error_closure_as_written h) n) (fire h k frm).
Proof.
  revert h.
  hooks_hered ltac:(simpl; by_endpoint).
Qed.

Lemma hooks_success_closures :
  forall (h : Host) k frm, In k hooks ->
    forall n, Forall (hered success_closure_as_written n) (fire h k frm).
Proof.
  hooks_hered ltac:(simpl; split_ifs; by_endpoint).
Qed.

Lemma hooks_one_call_per_button :
  forall (h : Host) k frm, In k hooks ->
    forall n, Forall (hered button_issues_one_call n) (fire h k frm).
Proof.
  hooks_hered ltac:(simpl; auto; eexists; intro; do 5 eexists;
                    split; reflexivity).
Qed.

Lemma hooks_fire_and_forget :
  forall (h : Host) k frm, In k hooks ->
    forall n, Forall (hered fire_and_forget n) (fire h k frm).
Proof.
  hooks_hered ltac:(simpl; intros; repeat split; intros; split_ifs;
                    reflexivity).
Qed.

(** ** The statements *)

(** C1. The script branch_list.js is rejected before its first statement
    runs: it declares [const doctypeName] four times in one scope, which is a
    redeclaration error, so loading it leaves the registry exactly as it was
    and none of its four registrations (the Branch list hook, the eTims
    Registered Purchases form hook, the eTims Registered Purchases list hook,
    the eTims User list hook) is made. *)
Theorem branch_list_script_is_rejected :
  forall reg : Registry,
    count_occ string_dec (lexically_declared_names BranchList.script)
              "doctypeName" = 4 /\
    load_script BranchList.script reg = (reg, Some (SyntaxError "doctypeName")).
Proof.
  intro reg. split; reflexivity.
Qed.

(** The three other scripts declare the name once and load. *)
Lemma other_scripts_load :
  load_script EtimsUser.script empty_registry =
    ({| form_events := [("eTims User", EtimsUser.refresh)];
        listview_settings := [] |}, None) /\
  load_script EtimsRegisteredImportedItemList.script empty_registry =
    ({| form_events := [];
        listview_settings :=
          [("eTims Registered Imported Item",
            EtimsRegisteredImportedItemList.onload)] |}, None) /\
  load_script EtimsRegisteredStockMovementList.script empty_registry =
    ({| form_events := [];
        listview_settings :=
          [("eTims Registered Stock Movement",
            EtimsRegisteredStockMovementList.onload)] |}, None).
Proof. repeat split. Qed.

(** C2, as stated, fails: on the page of a saved eTims Registered Purchases
    document the validation call is in flight, and its failure closure opens
    a dialog. *)
Lemma validate_error_callback_shows_dialog : ~ every_error_callback_is_empty.
Proof.
  intro H.
  assert (Hc : exists c,
             nth_error (in_flight (session demo_host
                                     (form_hook BranchList.purchases_refresh)
                                     saved_purchase [])) 0 = Some c /\
             on_error c JNull =
             [ frappe_msgprint "Failed to validate items." ]).
  { eexists. split; reflexivity. }
  destruct Hc as [c [Hi Hc]].
  rewrite (H demo_host (form_hook BranchList.purchases_refresh)
             saved_purchase [] 0 c JNull) in Hc.
  - discriminate Hc.
  - unfold hooks; simpl; auto.
  - exact Hi.
Qed.

(** C2, amended.  The failure closure of every call a hook can ever put in
    flight is empty, so the failure only takes the call off the page, except
    for the validation call made when a saved eTims Registered Purchases
    form is refreshed: its failure closure opens the dialog "Failed to
    validate items.". *)
Theorem error_callbacks_by_endpoint :
  forall h k frm es i c e,
    In k hooks ->
    nth_error (in_flight (session h k frm es)) i = Some c ->
    (req_method (rq c) <> validate_item_mapped_and_registered ->
     on_error c e = [] /\
     step (session h k frm es) (fail i e) = answered i (session h k frm es))
    /\
    (req_method (rq c) = validate_item_mapped_and_registered ->
     on_error c e =
       [ frappe_msgprint (translate h "Failed to validate items.") ] /\
     dialogs (step (session h k frm es) (fail i e)) =
       dialogs (session h k frm es) ++
       [ translate h "Failed to validate items." ]).
Proof.
  intros h k frm es i c e Hk Hi.
  pose proof (session_call _ h k frm es c (hooks_error_closures h k frm Hk)
                           (nth_error_In _ _ Hi)) as [Hsilent Hloud].
  simpl in Hsilent, Hloud. split; intro Hm.
  - split; [apply Hsilent, Hm|].
    simpl. rewrite Hi, (Hsilent Hm e). reflexivity.
  - split; [apply Hloud, Hm|].
    simpl. rewrite Hi, (Hloud Hm e), dialogs_exec. reflexivity.
Qed.

Lemma error_callbacks_by_endpoint_witness :
  In (form_hook BranchList.purchases_refresh) hooks /\
  dialogs (step (session demo_host (form_hook BranchList.purchases_refresh)
                         saved_purchase [click 0])
                (fail 1 JNull)) = [] /\
  dialogs (step (session demo_host (form_hook BranchList.purchases_refresh)
                         saved_purchase [click 0])
                (fail 0 JNull)) = [ "Failed to validate items." ].
Proof.
  assert (Hk : In (form_hook BranchList.purchases_refresh) hooks)
    by (unfold hooks; simpl; auto).
  split; [exact Hk|]. split.
  - destruct (error_callbacks_by_endpoint
                demo_host (form_hook BranchList.purchases_refresh)
                saved_purchase [click 0] 1 _ JNull Hk eq_refl)
      as [[_ Hstep] _]; [discriminate|].
    rewrite Hstep. reflexivity.
  - destruct (error_callbacks_by_endpoint
                demo_host (form_hook BranchList.purchases_refresh)
                saved_purchase [click 0] 0 _ JNull Hk eq_refl)
      as [_ [_ Hd]]; [reflexivity|].
    exact Hd.
Defined.

(** C3, as stated, fails: on the eTims Registered Imported Item list the
    answer to the Get Imported Items call shows nothing. *)
Lemma imported_items_success_shows_nothing : ~ every_success_is_acknowledged.
Proof.
  intro H.
  destruct (H demo_host (list_hook EtimsRegisteredImportedItemList.onload)
              list_form [click 0] 0
              {| rq := {| req_method := perform_import_item_search_all_branches;
                          req_args :=
                            [ ("request_data",
                               JObj [ ("company_name", JStr "Acme Ltd") ]) ];
                          req_freeze := true;
                          req_freeze_message :=
                            Some "Sending request to eTIMS… Please wait" |};
                 on_success := fun _ => [];
                 on_error := fun _ => [] |}
              [ ("message", JStr "ok") ]) as [msg Hmsg].
  - unfold hooks; simpl; auto 8.
  - reflexivity.
  - discriminate Hmsg.
Qed.

(** C3, amended.  When a call succeeds, the dialog "Request queued. Please
    check in later." is shown for the save_branch_user_details call only;
    the search_branch_request call only writes that text, without the final
    period, to the browser console; every other call shows nothing, and its
    success closure is empty unless it is the validation call.  No success
    closure issues a call. *)
Theorem success_callbacks_by_endpoint :
  forall h k frm es i c r,
    In k hooks ->
    nth_error (in_flight (session h k frm es)) i = Some c ->
    dialogs (step (session h k frm es) (succeed i r)) =
      dialogs (session h k frm es) ++ ack_dialogs (req_method (rq c)) /\
    console (step (session h k frm es) (succeed i r)) =
      console (session h k frm es) ++ ack_console (req_method (rq c)) /\
    (req_method (rq c) <> save_branch_user_details ->
     req_method (rq c) <> search_branch_request ->
     req_method (rq c) <> validate_item_mapped_and_registered ->
     on_success c r = []).
Proof.
  intros h k frm es i c r Hk Hi.
  pose proof (session_call _ h k frm es c (hooks_success_closures h k frm Hk)
                           (nth_error_In _ _ Hi)) as Hc.
  simpl in Hc. destruct (Hc r) as [Hd [Hl [_ Hrest]]].
  simpl. rewrite Hi, dialogs_exec, console_exec, Hd, Hl.
  repeat split. exact Hrest.
Qed.

Lemma success_callbacks_by_endpoint_witness :
  In (form_hook EtimsUser.refresh) hooks /\
  dialogs (step (session demo_host (form_hook EtimsUser.refresh)
                         saved_user [click 0])
                (succeed 0 [ ("message", JNull) ])) =
    [ "Request queued. Please check in later." ].
Proof.
  assert (Hk : In (form_hook EtimsUser.refresh) hooks)
    by (unfold hooks; simpl; auto).
  split; [exact Hk|].
  destruct (success_callbacks_by_endpoint
              demo_host (form_hook EtimsUser.refresh) saved_user [click 0]
              0 _ [ ("message", JNull) ] Hk eq_refl) as [Hd _].
  exact Hd.
Defined.

(** C4.  On a saved eTims User form the hook adds one button, Submit Branch
    User Details.  Whatever the user edits before clicking it, the click
    issues exactly one call, to save_branch_user_details, whose
    [request_data] has exactly the fields name, company_name, user_id,
    full_names, branch_id, registration_id, modifier_id, read from the
    document's name, the default company, and the document's system_user,
    users_full_names, custom_etims_branch_id, owner and modified_by. *)
Theorem submit_branch_user_details_request :
  forall h frm edits,
    is_new frm = false ->
    let p := session h (form_hook EtimsUser.refresh) frm (edits_of edits) in
    (exists b, buttons p = [b] /\
               btn_label b = translate h "Submit Branch User Details") /\
    issued p = [] /\
    issued (step p (click 0)) =
      [ {| req_method := save_branch_user_details;
           req_args :=
             [ ("request_data",
                JObj [ ("name", get (doc (form p)) "name");
                       ("company_name", sysdefaults_company h);
                       ("user_id", get (doc (form p)) "system_user");
                       ("full_names", get (doc (form p)) "users_full_names");
                       ("branch_id",
                        get (doc (form p)) "custom_etims_branch_id");
                       ("registration_id", get (doc (form p)) "owner");
                       ("modifier_id", get (doc (form p)) "modified_by") ]) ];
           req_freeze := true;
           req_freeze_message :=
             Some (translate h "Sending request to eTIMS… Please wait") |} ].
Proof.
  intros h frm edits Hnew p.
  destruct (run_edits edits (open_page h (form_hook EtimsUser.refresh) frm))
    as [Hb [_ [Hs _]]].
  fold (session h (form_hook EtimsUser.refresh) frm (edits_of edits)) in Hb, Hs.
  fold p in Hb, Hs.
  unfold open_page in Hb, Hs. simpl in Hb, Hs.
  unfold EtimsUser.refresh in Hb, Hs. rewrite Hnew in Hb, Hs.
  simpl in Hb, Hs.
  split; [|split].
  - eexists. split; [exact Hb|reflexivity].
  - exact Hs.
  - unfold step. rewrite Hb. cbn [nth_error].
    rewrite issued_exec, Hs. reflexivity.
Qed.

Lemma submit_branch_user_details_request_witness :
  is_new saved_user = false /\
  issued (step (session demo_host (form_hook EtimsUser.refresh) saved_user
                        (edits_of [ ("custom_etims_branch_id", JStr "01") ]))
               (click 0)) =
    [ {| req_method := save_branch_user_details;
         req_args :=
           [ ("request_data",
              JObj [ ("name", JStr "USR-0001");
                     ("company_name", JStr "Acme Ltd");
                     ("user_id", JStr "jane@example.com");
                     ("full_names", JStr "Jane Doe");
                     ("branch_id", JStr "01");
                     ("registration_id", JStr "admin@example.com");
                     ("modifier_id", JStr "clerk@example.com") ]) ];
         req_freeze := true;
         req_freeze_message :=
           Some "Sending request to eTIMS… Please wait" |} ].
Proof.
  split; [reflexivity|].
  exact (proj2 (proj2 (submit_branch_user_details_request
                         demo_host saved_user
                         [ ("custom_etims_branch_id", JStr "01") ]
                         eq_refl))).
Defined.

(** C5.  On a saved eTims Registered Purchases form the second button the
    hook adds is Create Purchase Invoice.  Whatever the user edits before
    clicking it, the click issues exactly one more call, to
    create_purchase_invoice_from_request, whose [request_data] has exactly
    the fields name, company_name, supplier_name, supplier_pin,
    supplier_branch_id, supplier_invoice_no, supplier_invoice_date and items,
    with supplier_invoice_no read from the document's
    supplier_invoice_number and supplier_invoice_date from its sales_date. *)
Theorem create_purchase_invoice_request :
  forall h frm edits,
    is_new frm = false ->
    let p := session h (form_hook BranchList.purchases_refresh) frm
                     (edits_of edits) in
    (exists b, nth_error (buttons p) 1 = Some b /\
               btn_label b = translate h "Create Purchase Invoice") /\
    issued (step p (click 1)) =
      issued p ++
      [ {| req_method := create_purchase_invoice_from_request;
           req_args :=
             [ ("request_data",
                JObj [ ("name", get (doc (form p)) "name");
                       ("company_name", sysdefaults_company h);
                       ("supplier_name", get (doc (form p)) "supplier_name");
                       ("supplier_pin", get (doc (form p)) "supplier_pin");
                       ("supplier_branch_id",
                        get (doc (form p)) "supplier_branch_id");
                       ("supplier_invoice_no",
                        get (doc (form p)) "supplier_invoice_number");
                       ("supplier_invoice_date",
                        get (doc (form p)) "sales_date");
                       ("items", get (doc (form p)) "items") ]) ];
           req_freeze := false;
           req_freeze_message := None |} ].
Proof.
  intros h frm edits Hnew p.
  destruct (run_edits edits
              (open_page h (form_hook BranchList.purchases_refresh) frm))
    as [Hb _].
  fold (session h (form_hook BranchList.purchases_refresh) frm
                (edits_of edits)) in Hb.
  fold p in Hb.
  unfold open_page in Hb. simpl in Hb.
  unfold BranchList.purchases_refresh in Hb. rewrite Hnew in Hb.
  simpl in Hb.
  split.
  - rewrite Hb. eexists. split; reflexivity.
  - unfold step. rewrite Hb. cbn [nth_error].
    rewrite issued_exec. reflexivity.
Qed.

Lemma create_purchase_invoice_request_witness :
  is_new saved_purchase = false /\
  issued (step (session demo_host (form_hook BranchList.purchases_refresh)
                        saved_purchase
                        (edits_of [ ("sales_date", JStr "2024-05-02") ]))
               (click 1)) =
    [ {| req_method := validate_item_mapped_and_registered;
         req_args :=
           [ ("items", JArr [ JObj [ ("item_name", JStr "Sugar") ] ]) ];
         req_freeze := false;
         req_freeze_message := None |};
      {| req_method := create_purchase_invoice_from_request;
         req_args :=
           [ ("request_data",
              JObj [ ("name", JStr "PUR-0001");
                     ("company_name", JStr "Acme Ltd");
                     ("supplier_name", JStr "Mega Traders");
                     ("supplier_pin", JStr "P000000000A");
                     ("supplier_branch_id", JStr "00");
                     ("supplier_invoice_no", JNum 17);
                     ("supplier_invoice_date", JStr "2024-05-02");
                     ("items",
                      JArr [ JObj [ ("item_name", JStr "Sugar") ] ]) ]) ];
         req_freeze := false;
         req_freeze_message := None |} ].
Proof.
  split; [reflexivity|].
  exact (proj2 (create_purchase_invoice_request
                  demo_host saved_purchase
                  [ ("sales_date", JStr "2024-05-02") ] eq_refl)).
Defined.

(** C6.  Each of the five list-view hooks (imported items, branch,
    purchases, branch user, stock movement) adds one button, and a click on
    it issues exactly one call whose [request_data] has the single field
    company_name, holding the default company read from
    frappe.boot.sysdefaults.company. *)
Theorem list_buttons_send_company_only :
  forall h k frm,
    In k list_hooks ->
    let p := open_page h k frm in
    (exists b, buttons p = [b]) /\
    issued p = [] /\
    exists m fz fm,
      issued (step p (click 0)) =
        [ {| req_method := m;
             req_args :=
               [ ("request_data",
                  JObj [ ("company_name", sysdefaults_company h) ]) ];
             req_freeze := fz;
             req_freeze_message := fm |} ].
Proof.
  intros h k frm Hk p. subst p.
  simpl in Hk.
  repeat (destruct Hk as [<-|Hk]; [|]); try contradiction;
    (split; [eexists; reflexivity|];
     split; [reflexivity|];
     do 3 eexists; reflexivity).
Qed.

Lemma list_buttons_send_company_only_witness :
  In (list_hook EtimsRegisteredStockMovementList.onload) list_hooks /\
  issued (step (open_page demo_host
                          (list_hook EtimsRegisteredStockMovementList.onload)
                          list_form)
               (click 0)) =
    [ {| req_method := perform_stock_movement_search_all_branches;
         req_args :=
           [ ("request_data", JObj [ ("company_name", JStr "Acme Ltd") ]) ];
         req_freeze := false;
         req_freeze_message := None |} ].
Proof.
  assert (Hk : In (list_hook EtimsRegisteredStockMovementList.onload)
                  list_hooks) by (simpl; auto 6).
  split; [exact Hk|].
  destruct (list_buttons_send_company_only
              demo_host (list_hook EtimsRegisteredStockMovementList.onload)
              list_form Hk) as [_ [_ [m [fz [fm Hreq]]]]].
  rewrite Hreq. injection Hreq as <- <- <-. reflexivity.
Defined.

(** C7.  Every button on every page a hook can produce is bound to one
    endpoint, fixed when the button is added: whatever the form holds when
    the button is clicked, its closure is a single call to that endpoint
    whose [request_data] has the fields the interface table lists for it, and
    the click adds exactly one call to those issued. *)
Theorem click_issues_exactly_one_call :
  forall h k frm es i b,
    In k hooks ->
    nth_error (buttons (session h k frm es)) i = Some b ->
    exists m fields,
      spec_fields m = Some fields /\
      (forall frm', exists payload fz fm cb er,
          btn_click b frm' =
            [ frappe_call m [ ("request_data", JObj payload) ] fz fm cb er ] /\
          keys payload = fields) /\
      exists r payload,
        issued (step (session h k frm es) (click i)) =
          issued (session h k frm es) ++ [r] /\
        req_method r = m /\
        req_args r = [ ("request_data", JObj payload) ] /\
        keys payload = fields.
Proof.
  intros h k frm es i b Hk Hi.
  pose proof (session_button _ h k frm es b
                (hooks_one_call_per_button h k frm Hk)
                (nth_error_In _ _ Hi)) as Hb.
  assert (Hone : exists m, one_call_to m (btn_click b)).
  { unfold cmd_of_button in Hb. destruct (btn_kind b); exact Hb. }
  destruct Hone as [m Hone].
  destruct (Hone (form (session h k frm es)))
    as [payload [fz [fm [cb [er [Hclick Hfields]]]]]].
  exists m, (keys payload). split; [exact Hfields|]. split.
  - intro frm'.
    destruct (Hone frm') as [payload' [fz' [fm' [cb' [er' [Hc' Hf']]]]]].
    exists payload', fz', fm', cb', er'. split; [exact Hc'|].
    rewrite Hfields in Hf'. injection Hf' as ->. reflexivity.
  - eexists. exists payload. split; [|split; [|split]].
    + unfold step. rewrite Hi, issued_exec, Hclick. reflexivity.
    + reflexivity.
    + reflexivity.
    + reflexivity.
Qed.

Lemma click_issues_exactly_one_call_witness :
  In (form_hook BranchList.purchases_refresh) hooks /\
  map req_method
      (issued (step (session demo_host
                             (form_hook BranchList.purchases_refresh)
                             saved_purchase
                             [ succeed 0 [ ("message", JBool false) ] ])
                    (click 2))) =
    [ validate_item_mapped_and_registered;
      create_items_from_fetched_registered_purchases ].
Proof.
  assert (Hk : In (form_hook BranchList.purchases_refresh) hooks)
    by (unfold hooks; simpl; auto).
  split; [exact Hk|].
  destruct (click_issues_exactly_one_call
              demo_host (form_hook BranchList.purchases_refresh)
              saved_purchase [ succeed 0 [ ("message", JBool false) ] ] 2 _
              Hk eq_refl)
    as [m [fields [_ [Hclosure [r [payload [Hissued [Hm _]]]]]]]].
  rewrite Hissued, map_app. simpl. rewrite Hm.
  destruct (Hclosure saved_purchase)
    as [payload' [fz [fm [cb [er [Hc _]]]]]].
  injection Hc as <-. reflexivity.
Defined.

(** C8.  Refreshing a saved eTims Registered Purchases form puts one call in
    flight, validate_item_mapped_and_registered, with the document's items.
    When it succeeds, the Create Items button is added exactly when the
    response's message is the boolean false, and nothing is added otherwise.
    When it fails, the dialog "Failed to validate items." is shown and no
    button is added. *)
Theorem create_items_gated_by_validation :
  forall h frm,
    is_new frm = false ->
    let p := open_page h (form_hook BranchList.purchases_refresh) frm in
    (exists c, in_flight p = [c] /\
               req_method (rq c) = validate_item_mapped_and_registered /\
               req_args (rq c) = [ ("items", get (doc frm) "items") ]) /\
    (forall r,
        (exists b, buttons (step p (succeed 0 r)) = buttons p ++ [b] /\
                   btn_label b = translate h "Create Items")
        <-> get r "message" = JBool false) /\
    (forall r,
        get r "message" <> JBool false ->
        buttons (step p (succeed 0 r)) = buttons p) /\
    (forall e,
        dialogs (step p (fail 0 e)) =
          [ translate h "Failed to validate items." ] /\
        buttons (step p (fail 0 e)) = buttons p).
Proof.
  intros h frm Hnew p. subst p.
  unfold open_page. simpl fire. unfold BranchList.purchases_refresh.
  rewrite Hnew. simpl negb. cbv iota.
  assert (Hgate : forall r,
             get r "message" <> JBool false ->
             is_strictly_false (get r "message") = false).
  { intros r Hr. destruct (is_strictly_false (get r "message")) eqn:E;
      [|reflexivity].
    apply is_strictly_false_iff in E. contradiction. }
  split; [|split; [|split]].
  - eexists. split; [reflexivity|]. split; reflexivity.
  - intro r. split.
    + intros [b [Hb _]].
      destruct (is_strictly_false (get r "message")) eqn:E.
      * apply is_strictly_false_iff, E.
      * simpl in Hb. rewrite E in Hb. simpl in Hb. discriminate Hb.
    + intro Hr. apply is_strictly_false_iff in Hr.
      simpl. rewrite Hr. simpl. eexists. split; reflexivity.
  - intros r Hr. simpl. rewrite (Hgate r Hr). reflexivity.
  - intro e. split; reflexivity.
Qed.

Lemma create_items_gated_by_validation_witness :
  is_new saved_purchase = false /\
  map btn_label
      (buttons (step (open_page demo_host
                                (form_hook BranchList.purchases_refresh)
                                saved_purchase)
                     (succeed 0 [ ("message", JBool false) ]))) =
    [ "Create Supplier"; "Create Purchase Invoice"; "Create Items" ] /\
  map btn_label
      (buttons (step (open_page demo_host
                                (form_hook BranchList.purchases_refresh)
                                saved_purchase)
                     (succeed 0 [ ("message", JNum 0) ]))) =
    [ "Create Supplier"; "Create Purchase Invoice" ].
Proof.
  split; [reflexivity|].
  destruct (create_items_gated_by_validation demo_host saved_purchase eq_refl)
    as [_ [Hadd [Hskip _]]].
  split.
  - destruct (proj2 (Hadd [ ("message", JBool false) ]) eq_refl)
      as [b [Hb Hl]].
    rewrite Hb, map_app. simpl. rewrite Hl. reflexivity.
  - rewrite (Hskip [ ("message", JNum 0) ]); [reflexivity|discriminate].
Defined.

(** C9.  When the document is new, neither form hook does anything: the
    hook runs no command, and whatever happens afterwards the page has no
    button and no call is ever issued. *)
Theorem new_documents_get_no_buttons :
  forall h k frm es,
    In k form_hooks ->
    is_new frm = true ->
    fire h k frm = [] /\
    buttons (session h k frm es) = [] /\
    issued (session h k frm es) = [].
Proof.
  intros h k frm es Hk Hnew.
  assert (Hfire : fire h k frm = []).
  { simpl in Hk. destruct Hk as [<-|[<-|[]]]; simpl.
    - unfold EtimsUser.refresh. rewrite Hnew. reflexivity.
    - unfold BranchList.purchases_refresh. rewrite Hnew. reflexivity. }
  split; [exact Hfire|].
  unfold session, open_page. rewrite Hfire.
  destruct (run_idle es (blank_page frm) eq_refl eq_refl)
    as [Hb [_ [Hs _]]].
  split; [exact Hb|exact Hs].
Qed.

Lemma new_documents_get_no_buttons_witness :
  In (form_hook BranchList.purchases_refresh) form_hooks /\
  is_new unsaved_purchase = true /\
  buttons (session demo_host (form_hook BranchList.purchases_refresh)
                   unsaved_purchase
                   [ click 0; succeed 0 [ ("message", JBool false) ] ]) = [].
Proof.
  assert (Hk : In (form_hook BranchList.purchases_refresh) form_hooks)
    by (simpl; auto).
  split; [exact Hk|]. split; [reflexivity|].
  exact (proj1 (proj2 (new_documents_get_no_buttons
                         demo_host (form_hook BranchList.purchases_refresh)
                         unsaved_purchase
                         [ click 0; succeed 0 [ ("message", JBool false) ] ]
                         Hk eq_refl))).
Defined.

(** C10.  On every page a hook can produce: the answer to a call, success or
    failure, only takes that call out of flight, and with it its freeze
    overlay; it issues no further call, so nothing is retried.  A click never
    takes a call out of flight: it only adds calls, and changes nothing else
    on the page, so all it can show is the overlay of a call it adds. *)
Theorem calls_are_fire_and_forget :
  forall h k frm es i,
    In k hooks ->
    let p := session h k frm es in
    (forall r,
        issued (step p (succeed i r)) = issued p /\
        in_flight (step p (succeed i r)) = remove_nth i (in_flight p) /\
        overlay (step p (succeed i r)) = overlay_of (remove_nth i (in_flight p)))
    /\
    (forall e,
        issued (step p (fail i e)) = issued p /\
        in_flight (step p (fail i e)) = remove_nth i (in_flight p) /\
        overlay (step p (fail i e)) = overlay_of (remove_nth i (in_flight p)))
    /\
    (exists new,
        in_flight (step p (click i)) = in_flight p ++ new /\
        overlay (step p (click i)) = overlay p ++ overlay_of new) /\
    buttons (step p (click i)) = buttons p /\
    dialogs (step p (click i)) = dialogs p /\
    console (step p (click i)) = console p.
Proof.
  intros h k frm es i Hk p.
  pose proof (hooks_fire_and_forget h k frm Hk) as Hh.
  assert (Hanswer : forall cs,
             calls_in cs = [] ->
             issued (exec cs (answered i p)) = issued p /\
             in_flight (exec cs (answered i p)) = remove_nth i (in_flight p) /\
             overlay (exec cs (answered i p)) =
               overlay_of (remove_nth i (in_flight p))).
  { intros cs Hcs. unfold overlay.
    rewrite issued_exec, in_flight_exec, Hcs, (no_calls_no_in_flight cs Hcs).
    simpl. rewrite !app_nil_r. repeat split. }
  assert (Hnone : nth_error (in_flight p) i = None ->
                  issued p = issued p /\
                  in_flight p = remove_nth i (in_flight p) /\
                  overlay p = overlay_of (remove_nth i (in_flight p))).
  { intro Hi. unfold overlay. rewrite (remove_nth_beyond _ _ Hi).
    repeat split. }
  split; [|split; [|split]].
  - intro r. simpl. destruct (nth_error (in_flight p) i) as [c|] eqn:Hi.
    + apply Hanswer.
      apply (session_call _ h k frm es c Hh (nth_error_In _ _ Hi)).
    + apply Hnone. reflexivity.
  - intro e. simpl. destruct (nth_error (in_flight p) i) as [c|] eqn:Hi.
    + apply Hanswer.
      apply (session_call _ h k frm es c Hh (nth_error_In _ _ Hi)).
    + apply Hnone. reflexivity.
  - simpl. destruct (nth_error (buttons p) i) as [b|].
    + eexists. unfold overlay. rewrite in_flight_exec.
      split; [reflexivity|].
      unfold overlay_of. rewrite filter_app, map_app. reflexivity.
    + exists []. unfold overlay. rewrite !app_nil_r. split; reflexivity.
  - simpl. destruct (nth_error (buttons p) i) as [b|] eqn:Hi;
      [|repeat split].
    pose proof (session_button _ h k frm es b Hh (nth_error_In _ _ Hi)) as Hb.
    assert (Hquiet : dialogs_in (btn_click b (form p)) = [] /\
                     console_in (btn_click b (form p)) = [] /\
                     buttons_in (btn_click b (form p)) = []).
    { unfold cmd_of_button in Hb. destruct (btn_kind b); apply Hb. }
    destruct Hquiet as [Hd [Hc Hbt]].
    rewrite buttons_exec, dialogs_exec, console_exec, Hd, Hc, Hbt, !app_nil_r.
    repeat split.
Qed.

Lemma calls_are_fire_and_forget_witness :
  In (form_hook EtimsUser.refresh) hooks /\
  overlay (session demo_host (form_hook EtimsUser.refresh) saved_user
                   [ click 0 ]) =
    [ Some "Sending request to eTIMS… Please wait" ] /\
  overlay (step (session demo_host (form_hook EtimsUser.refresh) saved_user
                         [ click 0 ])
                (succeed 0 [ ("message", JNull) ])) = [] /\
  List.length (issued (step (session demo_host (form_hook EtimsUser.refresh)
                                saved_user [ click 0 ])
                       (succeed 0 [ ("message", JNull) ]))) = 1.
Proof.
  assert (Hk : In (form_hook EtimsUser.refresh) hooks)
    by (unfold hooks; simpl; auto).
  split; [exact Hk|]. split; [reflexivity|].
  destruct (calls_are_fire_and_forget
              demo_host (form_hook EtimsUser.refresh) saved_user [ click 0 ]
              0 Hk) as [Hok _].
  destruct (Hok [ ("message", JNull) ]) as [Hs [_ Ho]].
  split.
  - rewrite Ho. reflexivity.
  - rewrite Hs. reflexivity.
Defined.

(** * Further properties of the handlers *)

Lemma run_app (es es' : list Event) (p : Page) :
  run (es ++ es') p = run es' (run es p).
Proof. apply fold_left_app. Qed.

(** X2.  The validation request made on refresh carries the items the
    document had at that moment.  Once the server has answered it with
    message false, the third button is Create Items, and a click on it
    issues exactly one more call, to
    create_items_from_fetched_registered_purchases, whose [request_data] has
    the fields name, company_name and items, read from the document as it is
    when clicked: edits made after the refresh reach the server without being
    validated again. *)
Theorem create_items_request :
  forall h frm r edits edits',
    is_new frm = false ->
    get r "message" = JBool false ->
    let p := session h (form_hook BranchList.purchases_refresh) frm
                     (edits_of edits ++ [succeed 0 r] ++ edits_of edits') in
    issued p =
      [ {| req_method := validate_item_mapped_and_registered;
           req_args := [ ("items", get (doc frm) "items") ];
           req_freeze := false;
           req_freeze_message := None |} ] /\
    (exists b, nth_error (buttons p) 2 = Some b /\
               btn_label b = translate h "Create Items") /\
    issued (step p (click 2)) =
      issued p ++
      [ {| req_method := create_items_from_fetched_registered_purchases;
           req_args :=
             [ ("request_data",
                JObj [ ("name", get (doc (form p)) "name");
                       ("company_name", sysdefaults_company h);
                       ("items", get (doc (form p)) "items") ]) ];
           req_freeze := false;
           req_freeze_message := None |} ].
Proof.
  intros h frm r edits edits' Hnew Hmsg p.
  set (p0 := open_page h (form_hook BranchList.purchases_refresh) frm).
  set (p1 := run (edits_of edits) p0).
  set (p2 := step p1 (succeed 0 r)).
  assert (Hp : p = run (edits_of edits') p2).
  { subst p p2 p1 p0. unfold session. rewrite !run_app. reflexivity. }
  destruct (run_edits edits p0) as [Hb1 [Hf1 [Hs1 _]]]. fold p1 in Hb1, Hf1, Hs1.
  unfold p0, open_page in Hb1, Hf1, Hs1. simpl in Hb1, Hf1, Hs1.
  unfold BranchList.purchases_refresh in Hb1, Hf1, Hs1.
  rewrite Hnew in Hb1, Hf1, Hs1. simpl in Hb1, Hf1, Hs1.
  assert (H2 : buttons p2 =
               buttons p1 ++
               [ {| btn_label := translate h "Create Items";
                    btn_kind :=
                      custom_button (Some (translate h "eTims Actions"));
                    btn_click := fun frm =>
                      [ frappe_call
                          create_items_from_fetched_registered_purchases
                          [ ("request_data",
                             JObj [ ("name", get (doc frm) "name");
                                    ("company_name", sysdefaults_company h);
                                    ("items", get (doc frm) "items") ]) ]
                          false None (fun _ => []) (fun _ => []) ] |} ] /\
               issued p2 = issued p1).
  { unfold p2, step. rewrite Hf1. cbn [nth_error on_success].
    rewrite Hmsg. cbn [is_strictly_false].
    rewrite buttons_exec, issued_exec. split; [reflexivity|].
    simpl. rewrite app_nil_r. reflexivity. }
  destruct H2 as [Hb2 Hs2].
  destruct (run_edits edits' p2) as [Hb [_ [Hs _]]].
  rewrite <- Hp in Hb, Hs.
  rewrite Hb2, Hb1 in Hb. rewrite Hs2, Hs1 in Hs. simpl in Hb.
  split; [exact Hs|]. split.
  - rewrite Hb. eexists. split; reflexivity.
  - unfold step. rewrite Hb. cbn [nth_error].
    rewrite issued_exec. reflexivity.
Qed.

Lemma create_items_request_witness :
  is_new saved_purchase = false /\
  get [ ("message", JBool false) ] "message" = JBool false /\
  map req_args
      (issued (step (session demo_host
                             (form_hook BranchList.purchases_refresh)
                             saved_purchase
                             (edits_of [] ++
                              [ succeed 0 [ ("message", JBool false) ] ] ++
                              edits_of [ ("items", JArr []) ]))
                    (click 2))) =
    [ [ ("items", JArr [ JObj [ ("item_name", JStr "Sugar") ] ]) ];
      [ ("request_data",
         JObj [ ("name", JStr "PUR-0001");
                ("company_name", JStr "Acme Ltd");
                ("items", JArr []) ]) ] ].
Proof.
  split; [reflexivity|]. split; [reflexivity|].
  destruct (create_items_request
              demo_host saved_purchase [ ("message", JBool false) ]
              [] [ ("items", JArr []) ] eq_refl eq_refl) as [_ [_ Hclick]].
  rewrite Hclick. reflexivity.
Defined.



Lemma hooks_freeze (h : Host) :
  forall k frm, In k hooks ->
    forall n, Forall (hered (freeze_as_written h) n) (fire h k frm).
Proof.
  revert h. hooks_hered ltac:(simpl; split; reflexivity).
Qed.

(** X4.  On every page a hook can produce, a call in flight freezes the
    page exactly when it goes to save_branch_user_details or to
    perform_import_item_search_all_branches, and every overlay shown carries
    the one message "Sending request to eTIMS… Please wait"; calls to the
    eight other endpoints never block the page. *)
Theorem freeze_by_endpoint :
  forall h k frm es,
    In k hooks ->
    Forall (fun c => req_freeze (rq c) = freezes (req_method (rq c)))
           (in_flight (session h k frm es)) /\
    Forall (fun m =>
              m = Some (translate h "Sending request to eTIMS… Please wait"))
           (overlay (session h k frm es)).
Proof.
  intros h k frm es Hk.
  assert (Hc : forall c, In c (in_flight (session h k frm es)) ->
                         freeze_as_written h (cmd_of_call c)).
  { intros c Hin.
    apply (session_call _ h k frm es c (hooks_freeze h k frm Hk) Hin). }
  split.
  - apply Forall_forall. intros c Hin. apply (Hc c Hin).
  - apply Forall_forall. intros m Hm. unfold overlay, overlay_of in Hm.
    apply in_map_iff in Hm. destruct Hm as [c [<- Hin]].
    apply filter_In in Hin. destruct Hin as [Hin Hfz].
    destruct (Hc c Hin) as [_ Hmsg]. simpl in Hmsg.
    rewrite Hfz in Hmsg. exact Hmsg.
Qed.

Lemma freeze_by_endpoint_witness :
  In (list_hook EtimsRegisteredImportedItemList.onload) hooks /\
  Forall (fun m => m = Some "Sending request to eTIMS… Please wait")
         (overlay (session demo_host
                           (list_hook EtimsRegisteredImportedItemList.onload)
                           list_form [ click 0 ])) /\
  List.length (overlay (session demo_host
                          (list_hook EtimsRegisteredImportedItemList.onload)
                          list_form [ click 0 ])) = 1.
Proof.
  assert (Hk : In (list_hook EtimsRegisteredImportedItemList.onload) hooks)
    by (unfold hooks; simpl; auto 8).
  split; [exact Hk|]. split; [|reflexivity].
  exact (proj2 (freeze_by_endpoint
                  demo_host (list_hook EtimsRegisteredImportedItemList.onload)
                  list_form [ click 0 ] Hk)).
Defined.

Lemma hooks_button_placement :
  forall (h : Host) k frm, In k hooks ->
    forall n, Forall (hered (button_placed_for h k) n) (fire h k frm).
Proof.
  hooks_hered ltac:(simpl; reflexivity).
Qed.

(** X5.  Every button on a form page, the Create Items button added later
    included, sits in the group "eTims Actions" of the form's custom
    buttons; every button on a list page is an inner button of the page. *)
Theorem buttons_placed_by_page_kind :
  forall h k frm es,
    In k hooks ->
    Forall (fun b => btn_kind b = kind_for h k)
           (buttons (session h k frm es)).
Proof.
  intros h k frm es Hk. apply Forall_forall. intros b Hb.
  pose proof (session_button _ h k frm es b
                (hooks_button_placement h k frm Hk) Hb) as Hq.
  unfold cmd_of_button in Hq. destruct (btn_kind b); exact Hq.
Qed.

Lemma buttons_placed_by_page_kind_witness :
  In (form_hook BranchList.purchases_refresh) hooks /\
  Forall (fun b => btn_kind b = custom_button (Some "eTims Actions"))
         (buttons (session demo_host (form_hook BranchList.purchases_refresh)
                           saved_purchase
                           [ succeed 0 [ ("message", JBool false) ] ])) /\
  List.length
    (buttons (session demo_host (form_hook BranchList.purchases_refresh)
                      saved_purchase
                      [ succeed 0 [ ("message", JBool false) ] ])) = 3.
Proof.
  assert (Hk : In (form_hook BranchList.purchases_refresh) hooks)
    by (unfold hooks; simpl; auto).
  split; [exact Hk|]. split; [|reflexivity].
  exact (buttons_placed_by_page_kind
           demo_host (form_hook BranchList.purchases_refresh)
           saved_purchase [ succeed 0 [ ("message", JBool false) ] ] Hk).
Defined.

Lemma click_repeated (i : nat) (b : Button) (frm : Form) (m : string)
      (a : JsObject) (fz : bool) (fm : option string)
      (cb : JsObject -> list Cmd) (er : JsValue -> list Cmd) (l : list Button) :
  nth_error l i = Some b ->
  btn_click b frm = [ frappe_call m a fz fm cb er ] ->
  forall n q,
    buttons q = l -> form q = frm ->
    let r := {| req_method := m; req_args := a;
                req_freeze := fz; req_freeze_message := fm |} in
    issued (run (repeat (click i) n) q) = issued q ++ repeat r n /\
    map rq (in_flight (run (repeat (click i) n) q)) =
      map rq (in_flight q) ++ repeat r n.
Proof.
  intros Hi Hclick n. induction n as [|n IH]; intros q Hb Hf r.
  - simpl. rewrite !app_nil_r. split; reflexivity.
  - change (run (repeat (click i) (S n)) q)
      with (run (repeat (click i) n) (step q (click i))).
    assert (Hstep : step q (click i) = exec [ frappe_call m a fz fm cb er ] q).
    { unfold step. rewrite Hb, Hi, Hf, Hclick. reflexivity. }
    destruct (IH (step q (click i))) as [Hs Hfl].
    + rewrite Hstep, buttons_exec. simpl. rewrite app_nil_r. exact Hb.
    + rewrite Hstep, form_exec. exact Hf.
    + rewrite Hs, Hfl, Hstep, issued_exec, in_flight_exec. simpl.
      rewrite map_app, <- !app_assoc. split; reflexivity.
Qed.

(** X6.  The scripts never disable or debounce a button.  For a button
    whose call is made without [freeze] (so that nothing covers the page
    while the call is in flight), clicking it [n] times in a row issues [n]
    identical calls, all in flight at once. *)
Theorem repeated_clicks_repeat_the_call :
  forall h k frm es i b n,
    In k hooks ->
    nth_error (buttons (session h k frm es)) i = Some b ->
    exists r,
      calls_in (btn_click b (form (session h k frm es))) = [r] /\
      (req_freeze r = false ->
       issued (run (repeat (click i) n) (session h k frm es)) =
         issued (session h k frm es) ++ repeat r n /\
       map rq (in_flight (run (repeat (click i) n) (session h k frm es))) =
         map rq (in_flight (session h k frm es)) ++ repeat r n).
Proof.
  intros h k frm es i b n Hk Hi.
  pose proof (session_button _ h k frm es b
                (hooks_one_call_per_button h k frm Hk)
                (nth_error_In _ _ Hi)) as Hb.
  assert (Hone : exists m, one_call_to m (btn_click b)).
  { unfold cmd_of_button in Hb. destruct (btn_kind b); exact Hb. }
  destruct Hone as [m Hone].
  destruct (Hone (form (session h k frm es)))
    as [payload [fz [fm [cb [er [Hclick _]]]]]].
  eexists. split; [rewrite Hclick; reflexivity|].
  intros _.
  apply (click_repeated i b _ _ _ _ _ _ _ _ Hi Hclick n _ eq_refl eq_refl).
Qed.

Lemma repeated_clicks_repeat_the_call_witness :
  In (list_hook BranchList.user_onload) hooks /\
  map req_method
      (issued (run (repeat (click 0) 3)
                   (session demo_host (list_hook BranchList.user_onload)
                            list_form []))) =
    [ create_branch_user; create_branch_user; create_branch_user ].
Proof.
  assert (Hk : In (list_hook BranchList.user_onload) hooks)
    by (unfold hooks; simpl; auto 8).
  split; [exact Hk|].
  destruct (repeated_clicks_repeat_the_call
              demo_host (list_hook BranchList.user_onload) list_form [] 0 _ 3
              Hk eq_refl) as [r [Hr Hrun]].
  injection Hr as <-.
  destruct (Hrun eq_refl) as [Hs _].
  rewrite Hs. reflexivity.
Defined.

Lemma filter_remove_nth {A : Type} (f : A -> bool) (l : list A) :
  forall i c,
    nth_error l i = Some c ->
    List.length (filter f (remove_nth i l)) + (if f c then 1 else 0) =
    List.length (filter f l).
Proof.
  induction l as [|x l IH]; intros [|i] c H; simpl in *; try discriminate.
  - injection H as ->. destruct (f c); simpl; lia.
  - specialize (IH i c H). destruct (f x); simpl; lia.
Qed.

Lemma late_buttons_step (h : Host) (base : list Button) (p : Page) (e : Event) :
  page_ok (late_buttons_as_written h) p ->
  (exists extra,
      buttons p = base ++ extra /\
      Forall (fun b => btn_label b = translate h "Create Items") extra /\
      List.length extra + pending_validations p <= 1) ->
  exists extra,
    buttons (step p e) = base ++ extra /\
    Forall (fun b => btn_label b = translate h "Create Items") extra /\
    List.length extra + pending_validations (step p e) <= 1.
Proof.
  intros Hok [extra [Hb [Hl Hn]]].
  destruct (Hok 0) as [Hbs Hcs].
  rewrite Forall_forall in Hbs, Hcs.
  assert (Hanswer : forall i c cs,
             nth_error (in_flight p) i = Some c ->
             in_flight_in cs = [] ->
             buttons_in cs = [] \/
             (is_validation c = true /\
              exists b, buttons_in cs = [b] /\
                        btn_label b = translate h "Create Items") ->
             exists extra',
               buttons (exec cs (answered i p)) = base ++ extra' /\
               Forall (fun b => btn_label b = translate h "Create Items")
                      extra' /\
               List.length extra' +
               pending_validations (exec cs (answered i p)) <= 1).
  { intros i c cs Hi Hfl Hbt.
    pose proof (filter_remove_nth is_validation (in_flight p) i c Hi) as Hcount.
    unfold pending_validations in *.
    rewrite buttons_exec, in_flight_exec, Hfl, app_nil_r. simpl.
    destruct Hbt as [Hnone|[Hval [b [Hone Hlabel]]]].
    - exists extra. rewrite Hnone, app_nil_r. split; [exact Hb|].
      split; [exact Hl|]. destruct (is_validation c); lia.
    - exists (extra ++ [b]). rewrite Hone, Hb, app_assoc.
      split; [reflexivity|]. split.
      + apply Forall_app. split; [exact Hl|]. constructor; [exact Hlabel|].
        constructor.
      + rewrite Hval in Hcount. rewrite length_app. simpl. lia. }
  destruct e as [i|i r|i err|k v]; simpl.
  - destruct (nth_error (buttons p) i) as [b|] eqn:Hi.
    + assert (Hq : buttons_in (btn_click b (form p)) = [] /\
                   filter is_validation
                          (in_flight_in (btn_click b (form p))) = []).
      { pose proof (Hbs b (nth_error_In _ _ Hi)) as [Hq _].
        unfold cmd_of_button in Hq. destruct (btn_kind b); apply Hq. }
      destruct Hq as [Hnb Hnv].
      exists extra. unfold pending_validations in *.
      rewrite buttons_exec, in_flight_exec, Hnb, app_nil_r, filter_app, Hnv,
        app_nil_r.
      split; [exact Hb|]. split; [exact Hl|exact Hn].
    + exists extra. auto.
  - destruct (nth_error (in_flight p) i) as [c|] eqn:Hi.
    + pose proof (Hcs c (nth_error_In _ _ Hi)) as [[_ [Hnf Hbt]] _].
      apply (Hanswer i c _ Hi (Hnf r)).
      destruct (Hbt r) as [Hnone|[Hval Hsome]]; [left; exact Hnone|].
      right. split; [exact Hval|exact Hsome].
    + exists extra. auto.
  - destruct (nth_error (in_flight p) i) as [c|] eqn:Hi.
    + pose proof (Hcs c (nth_error_In _ _ Hi)) as [[Her _] _].
      destruct (Her err) as [Hnb Hnf].
      apply (Hanswer i c _ Hi Hnf). left. exact Hnb.
    + exists extra. auto.
  - exists extra. auto.
Qed.

Lemma late_buttons_run (h : Host) (base : list Button) (es : list Event) :
  forall p,
    page_ok (late_buttons_as_written h) p ->
    (exists extra,
        buttons p = base ++ extra /\
        Forall (fun b => btn_label b = translate h "Create Items") extra /\
        List.length extra + pending_validations p <= 1) ->
    exists extra,
      buttons (run es p) = base ++ extra /\
      Forall (fun b => btn_label b = translate h "Create Items") extra /\
      List.length extra + pending_validations (run es p) <= 1.
Proof.
  induction es as [|e es IH]; intros p Hok Hinv; simpl; [exact Hinv|].
  apply IH.
  - apply step_ok, Hok.
  - apply late_buttons_step; assumption.
Qed.

Lemma hooks_late_buttons (h : Host) :
  forall k frm, In k hooks ->
    forall n, Forall (hered (late_buttons_as_written h) n) (fire h k frm).
Proof.
  revert h.
  hooks_hered ltac:(simpl; split_ifs;
                    first [ reflexivity
                          | left; reflexivity
                          | right; split; [reflexivity|];
                            eexists; split; reflexivity ]).
Qed.

Lemma open_page_shape (h : Host) (k : Hook) (frm : Form) :
  In k hooks ->
  List.length (buttons (open_page h k frm)) <= 2 /\
  pending_validations (open_page h k frm) <= 1.
Proof.
  intro Hk. unfold hooks in Hk. simpl in Hk.
  destruct Hk as [<-|[<-|Hk]].
  - unfold open_page. simpl. unfold EtimsUser.refresh.
    destruct (is_new frm); simpl; split; auto.
  - unfold open_page. simpl. unfold BranchList.purchases_refresh.
    destruct (is_new frm); simpl; split; auto.
  - repeat (destruct Hk as [<-|Hk]; [simpl; split; auto|]). contradiction.
Qed.

(** X7.  After the hook ran, the only button that can still appear is
    Create Items, and it appears at most once: on every page a hook can
    produce, the buttons are those the hook added, in their order, followed
    by nothing or by the one Create Items button.  A page never holds more
    than three buttons. *)
Theorem create_items_added_at_most_once :
  forall h k frm es,
    In k hooks ->
    (buttons (session h k frm es) = buttons (open_page h k frm) \/
     exists b,
       buttons (session h k frm es) = buttons (open_page h k frm) ++ [b] /\
       btn_label b = translate h "Create Items") /\
    List.length (buttons (session h k frm es)) <= 3.
Proof.
  intros h k frm es Hk.
  destruct (open_page_shape h k frm Hk) as [Hlen Hpend].
  destruct (late_buttons_run h (buttons (open_page h k frm)) es
                             (open_page h k frm)) as [extra [Hb [Hl Hn]]].
  - apply exec_ok; [apply hooks_late_buttons, Hk|apply blank_page_ok].
  - exists []. rewrite app_nil_r. split; [reflexivity|].
    split; [constructor|]. simpl. exact Hpend.
  - fold (session h k frm es) in Hb. rewrite Hb.
    destruct extra as [|b [|b' extra]].
    + rewrite app_nil_r. split; [left; reflexivity|lia].
    + split.
      * right. exists b. split; [reflexivity|]. inversion Hl; assumption.
      * rewrite length_app. simpl. lia.
    + simpl in Hn. lia.
Qed.

Lemma create_items_added_at_most_once_witness :
  In (form_hook BranchList.purchases_refresh) hooks /\
  List.length
    (buttons (session demo_host (form_hook BranchList.purchases_refresh)
                      saved_purchase
                      [ succeed 0 [ ("message", JBool false) ];
                        click 2;
                        succeed 0 [ ("message", JBool false) ] ])) <= 3.
Proof.
  assert (Hk : In (form_hook BranchList.purchases_refresh) hooks)
    by (unfold hooks; simpl; auto).
  split; [exact Hk|].
  exact (proj2 (create_items_added_at_most_once
                  demo_host (form_hook BranchList.purchases_refresh)
                  saved_purchase
                  [ succeed 0 [ ("message", JBool false) ];
                    click 2;
                    succeed 0 [ ("message", JBool false) ] ] Hk)).
Defined.

Lemma purchases_buttons_kept (h : Host) (frm : Form) (es : list Event) :
  exists extra,
    buttons (session h (form_hook BranchList.purchases_refresh) frm es) =
    buttons (open_page h (form_hook BranchList.purchases_refresh) frm)
    ++ extra.
Proof.
  assert (Hk : In (form_hook BranchList.purchases_refresh) hooks)
    by (unfold hooks; simpl; auto).
  destruct (open_page_shape h _ frm Hk) as [_ Hpend].
  destruct (late_buttons_run
              h (buttons (open_page h (form_hook BranchList.purchases_refresh)
                                    frm))
              es (open_page h (form_hook BranchList.purchases_refresh) frm))
    as [extra [Hb _]].
  - apply exec_ok; [apply hooks_late_buttons, Hk|apply blank_page_ok].
  - exists []. rewrite app_nil_r. split; [reflexivity|].
    split; [constructor|exact Hpend].
  - exists extra. exact Hb.
Qed.

(** X1.  On a saved eTims Registered Purchases form the first button is
    Create Supplier.  Whatever has happened on the page since the refresh
    (clicks, answers, failures, edits), a click on it issues exactly one more
    call, to create_supplier_from_fetched_registered_purchases, whose
    [request_data] has the fields name, company_name, supplier_name,
    supplier_pin and supplier_branch_id, read from the document as it is when
    clicked and from the default company read on refresh; the call does not
    freeze the page. *)
Theorem create_supplier_request :
  forall h frm es,
    is_new frm = false ->
    let p := session h (form_hook BranchList.purchases_refresh) frm es in
    (exists b, nth_error (buttons p) 0 = Some b /\
               btn_label b = translate h "Create Supplier") /\
    issued (step p (click 0)) =
      issued p ++
      [ {| req_method := create_supplier_from_fetched_registered_purchases;
           req_args :=
             [ ("request_data",
                JObj [ ("name", get (doc (form p)) "name");
                       ("company_name", sysdefaults_company h);
                       ("supplier_name", get (doc (form p)) "supplier_name");
                       ("supplier_pin", get (doc (form p)) "supplier_pin");
                       ("supplier_branch_id",
                        get (doc (form p)) "supplier_branch_id") ]) ];
           req_freeze := false;
           req_freeze_message := None |} ].
Proof.
  intros h frm es Hnew p.
  destruct (purchases_buttons_kept h frm es) as [extra Hb].
  fold p in Hb. clearbody p.
  unfold open_page in Hb. simpl in Hb.
  unfold BranchList.purchases_refresh in Hb. rewrite Hnew in Hb.
  simpl in Hb.
  split.
  - rewrite Hb. eexists. split; reflexivity.
  - unfold step. rewrite Hb. cbn [nth_error].
    rewrite issued_exec. reflexivity.
Qed.

Lemma create_supplier_request_witness :
  is_new saved_purchase = false /\
  issued (step (session demo_host (form_hook BranchList.purchases_refresh)
                        saved_purchase
                        [ edit "supplier_pin" (JStr "P000000000B");
                          fail 0 JNull ])
               (click 0)) =
    [ {| req_method := validate_item_mapped_and_registered;
         req_args :=
           [ ("items", JArr [ JObj [ ("item_name", JStr "Sugar") ] ]) ];
         req_freeze := false;
         req_freeze_message := None |};
      {| req_method := create_supplier_from_fetched_registered_purchases;
         req_args :=
           [ ("request_data",
              JObj [ ("name", JStr "PUR-0001");
                     ("company_name", JStr "Acme Ltd");
                     ("supplier_name", JStr "Mega Traders");
                     ("supplier_pin", JStr "P000000000B");
                     ("supplier_branch_id", JStr "00") ]) ];
         req_freeze := false;
         req_freeze_message := None |} ].
Proof.
  split; [reflexivity|].
  exact (proj2 (create_supplier_request
                  demo_host saved_purchase
                  [ edit "supplier_pin" (JStr "P000000000B"); fail 0 JNull ]
                  eq_refl)).
Defined.

(** X11.  Create Purchase Invoice is not gated by the validation: on a saved
    eTims Registered Purchases form it is the second button whatever has
    happened since the refresh, the validation call being unanswered,
    answered with any message, or failed; a click on it then issues the
    create_purchase_invoice_from_request call with the document as it is
    when clicked. *)
Theorem create_purchase_invoice_not_gated :
  forall h frm es,
    is_new frm = false ->
    let p := session h (form_hook BranchList.purchases_refresh) frm es in
    (exists b, nth_error (buttons p) 1 = Some b /\
               btn_label b = translate h "Create Purchase Invoice") /\
    issued (step p (click 1)) =
      issued p ++
      [ {| req_method := create_purchase_invoice_from_request;
           req_args :=
             [ ("request_data",
                JObj [ ("name", get (doc (form p)) "name");
                       ("company_name", sysdefaults_company h);
                       ("supplier_name", get (doc (form p)) "supplier_name");
                       ("supplier_pin", get (doc (form p)) "supplier_pin");
                       ("supplier_branch_id",
                        get (doc (form p)) "supplier_branch_id");
                       ("supplier_invoice_no",
                        get (doc (form p)) "supplier_invoice_number");
                       ("supplier_invoice_date",
                        get (doc (form p)) "sales_date");
                       ("items", get (doc (form p)) "items") ]) ];
           req_freeze := false;
           req_freeze_message := None |} ].
Proof.
  intros h frm es Hnew p.
  destruct (purchases_buttons_kept h frm es) as [extra Hb].
  fold p in Hb. clearbody p.
  unfold open_page in Hb. simpl in Hb.
  unfold BranchList.purchases_refresh in Hb. rewrite Hnew in Hb.
  simpl in Hb.
  split.
  - rewrite Hb. eexists. split; reflexivity.
  - unfold step. rewrite Hb. cbn [nth_error].
    rewrite issued_exec. reflexivity.
Qed.

Lemma create_purchase_invoice_not_gated_witness :
  is_new saved_purchase = false /\
  map req_method
      (issued (step (session demo_host
                             (form_hook BranchList.purchases_refresh)
                             saved_purchase
                             [ succeed 0 [ ("message", JBool true) ] ])
                    (click 1))) =
    [ validate_item_mapped_and_registered;
      create_purchase_invoice_from_request ].
Proof.
  split; [reflexivity|].
  rewrite (proj2 (create_purchase_invoice_not_gated
                    demo_host saved_purchase
                    [ succeed 0 [ ("message", JBool true) ] ] eq_refl)).
  reflexivity.
Defined.

Lemma issued_bound (es : list Event) :
  forall p,
    page_ok button_issues_one_call p ->
    page_ok fire_and_forget p ->
    List.length (issued (run es p)) <=
    List.length (issued p) + count_clicks es.
Proof.
  induction es as [|e es IH]; intros p Hone Hff.
  - simpl. lia.
  - change (run (e :: es) p) with (run es (step p e)).
    specialize (IH (step p e) (step_ok _ p e Hone) (step_ok _ p e Hff)).
    assert (Hstep : List.length (issued (step p e)) + count_clicks es <=
                    List.length (issued p) + count_clicks (e :: es)).
    { destruct (Hone 0) as [Hbs _]. destruct (Hff 0) as [_ Hcs].
      rewrite Forall_forall in Hbs, Hcs.
      destruct e as [i|i r|i err|f v]; unfold count_clicks; simpl.
      - destruct (nth_error (buttons p) i) as [b|] eqn:Hi; [|lia].
        pose proof (Hbs b (nth_error_In _ _ Hi)) as [Hq _].
        assert (Hm : exists m, one_call_to m (btn_click b)).
        { unfold cmd_of_button in Hq. destruct (btn_kind b); exact Hq. }
        destruct Hm as [m Hm].
        destruct (Hm (form p)) as [pl [fz [fm [cb [er [Hclick _]]]]]].
        rewrite issued_exec, Hclick, length_app. simpl. lia.
      - destruct (nth_error (in_flight p) i) as [c|] eqn:Hi; [|lia].
        pose proof (Hcs c (nth_error_In _ _ Hi)) as [[Hs _] _].
        rewrite issued_exec, (Hs r), app_nil_r. simpl. lia.
      - destruct (nth_error (in_flight p) i) as [c|] eqn:Hi; [|lia].
        pose proof (Hcs c (nth_error_In _ _ Hi)) as [[_ He] _].
        rewrite issued_exec, (He err), app_nil_r. simpl. lia.
      - lia. }
    lia.
Qed.

Lemma open_page_issued (h : Host) (k : Hook) (frm : Form) :
  In k hooks -> List.length (issued (open_page h k frm)) <= 1.
Proof.
  intro Hk. unfold hooks in Hk. simpl in Hk.
  destruct Hk as [<-|[<-|Hk]].
  - unfold open_page. simpl. unfold EtimsUser.refresh.
    destruct (is_new frm); simpl; auto.
  - unfold open_page. simpl. unfold BranchList.purchases_refresh.
    destruct (is_new frm); simpl; auto.
  - repeat (destruct Hk as [<-|Hk]; [simpl; auto|]). contradiction.
Qed.

(** X12.  The scripts send nothing on their own: over any sequence of
    events, the calls issued on a page are at most one per click, plus the
    one validation call a refresh may issue.  Answers, failures and edits
    never add a call. *)
Theorem at_most_one_call_per_click :
  forall h k frm es,
    In k hooks ->
    List.length (issued (session h k frm es)) <=
      List.length (issued (open_page h k frm)) + count_clicks es /\
    List.length (issued (open_page h k frm)) <= 1.
Proof.
  intros h k frm es Hk. split; [|apply open_page_issued, Hk].
  apply issued_bound.
  - apply exec_ok; [apply hooks_one_call_per_button, Hk|apply blank_page_ok].
  - apply exec_ok; [apply hooks_fire_and_forget, Hk|apply blank_page_ok].
Qed.

Lemma at_most_one_call_per_click_witness :
  In (form_hook BranchList.purchases_refresh) hooks /\
  List.length
    (issued (session demo_host (form_hook BranchList.purchases_refresh)
                     saved_purchase
                     [ succeed 0 [ ("message", JBool false) ];
                       click 2; click 7; fail 0 JNull ])) <= 1 + 2.
Proof.
  assert (Hk : In (form_hook BranchList.purchases_refresh) hooks)
    by (unfold hooks; simpl; auto).
  split; [exact Hk|].
  exact (proj1 (at_most_one_call_per_click
                  demo_host (form_hook BranchList.purchases_refresh)
                  saved_purchase
                  [ succeed 0 [ ("message", JBool false) ];
                    click 2; click 7; fail 0 JNull ] Hk)).
Defined.

Lemma filter_filter_negb {A : Type} (f : A -> bool) (l : list A) :
  filter f (filter (fun x => negb (f x)) l) = [].
Proof.
  induction l as [|x l IH]; simpl; [reflexivity|].
  destruct (f x) eqn:E; simpl; [exact IH|]. rewrite E. exact IH.
Qed.

Lemma filter_other_key {A : Type} (d d' : string) (l : list (string * A)) :
  d' <> d ->
  filter (fun e => String.eqb (fst e) d')
         (filter (fun e => negb (String.eqb (fst e) d)) l) =
  filter (fun e => String.eqb (fst e) d') l.
Proof.
  intro Hne. induction l as [|[x v] l IH]; simpl; [reflexivity|].
  destruct (String.eqb x d) eqn:Ed; simpl.
  - apply String.eqb_eq in Ed. subst x.
    destruct (String.eqb d d') eqn:Ed'; [|exact IH].
    apply String.eqb_eq in Ed'. subst d'. contradiction.
  - rewrite IH. reflexivity.
Qed.

Lemma listview_hook_registered (d : string) (f : OnloadHook) (reg : Registry) :
  listview_hook (register_listview d f reg) d = Some f /\
  (forall d', d' <> d ->
              listview_hook (register_listview d f reg) d' =
              listview_hook reg d') /\
  (forall d', form_handlers (register_listview d f reg) d' =
              form_handlers reg d').
Proof.
  unfold listview_hook, register_listview, form_handlers. simpl.
  split; [|split].
  - rewrite filter_app, filter_filter_negb. simpl.
    rewrite String.eqb_refl. reflexivity.
  - intros d' Hne. rewrite filter_app, (filter_other_key d d' _ Hne). simpl.
    destruct (String.eqb d d') eqn:E.
    + apply String.eqb_eq in E. subst d'. contradiction.
    + rewrite app_nil_r. reflexivity.
  - reflexivity.
Qed.

(** X8.  Each of the two list-view scripts that load (imported items, stock
    movement) loads without error and assigns its [onload] hook to its own
    doctype: whatever list-view settings were registered for that doctype
    before are replaced, the settings of every other doctype and all form
    handlers are left as they were. *)
Theorem list_scripts_replace_their_doctype_only :
  forall reg s d f,
    In (s, d, f)
       [ (EtimsRegisteredImportedItemList.script,
          "eTims Registered Imported Item",
          EtimsRegisteredImportedItemList.onload);
         (EtimsRegisteredStockMovementList.script,
          "eTims Registered Stock Movement",
          EtimsRegisteredStockMovementList.onload) ] ->
    snd (load_script s reg) = None /\
    listview_hook (fst (load_script s reg)) d = Some f /\
    (forall d', d' <> d ->
                listview_hook (fst (load_script s reg)) d' =
                listview_hook reg d') /\
    (forall d', form_handlers (fst (load_script s reg)) d' =
                form_handlers reg d').
Proof.
  intros reg s d f Hin. simpl in Hin.
  destruct Hin as [Heq|[Heq|[]]]; injection Heq as <- <- <-;
    (split; [reflexivity|]); apply listview_hook_registered.
Qed.

Lemma list_scripts_replace_their_doctype_only_witness :
  In (EtimsRegisteredStockMovementList.script,
      "eTims Registered Stock Movement",
      EtimsRegisteredStockMovementList.onload)
     [ (EtimsRegisteredImportedItemList.script,
        "eTims Registered Imported Item",
        EtimsRegisteredImportedItemList.onload);
       (EtimsRegisteredStockMovementList.script,
        "eTims Registered Stock Movement",
        EtimsRegisteredStockMovementList.onload) ] /\
  listview_hook
    (fst (load_script
            EtimsRegisteredStockMovementList.script
            {| form_events := [];
               listview_settings :=
                 [ ("eTims Registered Stock Movement", fun _ => []) ] |}))
    "eTims Registered Stock Movement" =
  Some EtimsRegisteredStockMovementList.onload.
Proof.
  assert (Hin : In (EtimsRegisteredStockMovementList.script,
                    "eTims Registered Stock Movement",
                    EtimsRegisteredStockMovementList.onload)
                   [ (EtimsRegisteredImportedItemList.script,
                      "eTims Registered Imported Item",
                      EtimsRegisteredImportedItemList.onload);
                     (EtimsRegisteredStockMovementList.script,
                      "eTims Registered Stock Movement",
                      EtimsRegisteredStockMovementList.onload) ])
    by (simpl; auto).
  split; [exact Hin|].
  exact (proj1 (proj2 (list_scripts_replace_their_doctype_only
                         {| form_events := [];
                            listview_settings :=
                              [ ("eTims Registered Stock Movement",
                                 fun _ => []) ] |}
                         _ _ _ Hin))).
Defined.

(** X9.  The script etims_user.js loads without error and adds its
    [refresh] hook to the handlers of the doctype eTims User, after those
    already registered for it; the handlers of every other doctype and all
    list-view settings are left as they were. *)
Theorem etims_user_script_adds_a_form_handler :
  forall reg d,
    snd (load_script EtimsUser.script reg) = None /\
    form_handlers (fst (load_script EtimsUser.script reg)) d =
      form_handlers reg d ++
      (if String.eqb d "eTims User" then [ EtimsUser.refresh ] else []) /\
    listview_settings (fst (load_script EtimsUser.script reg)) =
      listview_settings reg.
Proof.
  intros reg d. split; [reflexivity|]. split; [|reflexivity].
  change (fst (load_script EtimsUser.script reg))
    with (register_form "eTims User" EtimsUser.refresh reg).
  unfold form_handlers, register_form. cbn [form_events].
  rewrite filter_app, map_app. cbn [filter fst].
  rewrite (String.eqb_sym "eTims User" d).
  destruct (String.eqb d "eTims User"); reflexivity.
Qed.

Lemma messages_of_closure (h : Host) (k : Hook) (n : nat) (cs : list Cmd) :
  Forall (hered (message_as_written h k) n) cs ->
  Forall (dialog_for h k) (dialogs_in cs) /\
  Forall known_console_line (console_in cs).
Proof.
  induction cs as [|c cs IH]; intro H; simpl.
  - split; constructor.
  - inversion H as [|c' cs' Hc Hcs]; subst.
    destruct (IH Hcs) as [Hd Hl].
    assert (Hq : message_as_written h k c) by (destruct n; apply Hc).
    split; apply Forall_app; split; try assumption;
      destruct c; simpl in *; repeat constructor; assumption.
Qed.

Lemma messages_exec (h : Host) (k : Hook) (cs : list Cmd) (p : Page) :
  (forall n, Forall (hered (message_as_written h k) n) cs) ->
  Forall (dialog_for h k) (dialogs p) /\
  Forall known_console_line (console p) ->
  Forall (dialog_for h k) (dialogs (exec cs p)) /\
  Forall known_console_line (console (exec cs p)).
Proof.
  intros Hcs [Hd Hl].
  destruct (messages_of_closure h k 0 cs (Hcs 0)) as [Hd' Hl'].
  rewrite dialogs_exec, console_exec.
  split; apply Forall_app; split; assumption.
Qed.

Lemma messages_run (h : Host) (k : Hook) (es : list Event) :
  forall p,
    page_ok (message_as_written h k) p ->
    Forall (dialog_for h k) (dialogs p) /\
    Forall known_console_line (console p) ->
    Forall (dialog_for h k) (dialogs (run es p)) /\
    Forall known_console_line (console (run es p)).
Proof.
  induction es as [|e es IH]; intros p Hok Hinv; simpl; [exact Hinv|].
  apply IH; [apply step_ok, Hok|].
  destruct e as [i|i r|i err|f v]; simpl.
  - destruct (nth_error (buttons p) i) as [b|] eqn:Hi; [|exact Hinv].
    apply messages_exec; [|exact Hinv].
    intro n. eapply click_closure_ok; eauto.
  - destruct (nth_error (in_flight p) i) as [c|] eqn:Hi; [|exact Hinv].
    apply messages_exec; [|exact Hinv].
    intro n. eapply answer_closures_ok; eauto.
  - destruct (nth_error (in_flight p) i) as [c|] eqn:Hi; [|exact Hinv].
    apply messages_exec; [|exact Hinv].
    intro n. eapply answer_closures_ok; eauto.
  - exact Hinv.
Qed.

Lemma hooks_messages :
  forall (h : Host) k frm, In k hooks ->
    forall n, Forall (hered (message_as_written h k) n) (fire h k frm).
Proof.
  hooks_hered ltac:(simpl; first [ reflexivity
                                 | left; reflexivity
                                 | right; reflexivity ]).
Qed.

(** X10.  Whatever happens on a page, the scripts only ever show two
    dialogs, "Request queued. Please check in later." and "Failed to
    validate items.", and only on form pages: a list page never shows a
    dialog.  The only line they ever write to the console is "Request
    queued. Please check in later". *)
Theorem only_known_messages :
  forall h k frm es,
    In k hooks ->
    Forall (dialog_for h k) (dialogs (session h k frm es)) /\
    Forall known_console_line (console (session h k frm es)).
Proof.
  intros h k frm es Hk.
  pose proof (hooks_messages h k frm Hk) as Hh.
  apply messages_run.
  - apply exec_ok; [exact Hh|apply blank_page_ok].
  - apply messages_exec; [exact Hh|]. split; constructor.
Qed.

Lemma only_known_messages_witness :
  In (list_hook BranchList.branch_onload) hooks /\
  dialogs (session demo_host (list_hook BranchList.branch_onload) list_form
                   [ click 0; succeed 0 [ ("message", JNull) ];
                     click 0; fail 0 JNull ]) = [] /\
  Forall known_console_line
         (console (session demo_host (list_hook BranchList.branch_onload)
                           list_form
                           [ click 0; succeed 0 [ ("message", JNull) ];
                             click 0; fail 0 JNull ])).
Proof.
  assert (Hk : In (list_hook BranchList.branch_onload) hooks)
    by (unfold hooks; simpl; auto 8).
  split; [exact Hk|].
  destruct (only_known_messages
              demo_host (list_hook BranchList.branch_onload) list_form
              [ click 0; succeed 0 [ ("message", JNull) ];
                click 0; fail 0 JNull ] Hk) as [Hd Hl].
  split; [|exact Hl].
  destruct (dialogs _) as [|msg rest]; [reflexivity|].
  inversion Hd as [|m l Hfalse _]. destruct Hfalse.
Defined.
